(** * house-manager: the parcelle form, list screen and exporter

    A shallow embedding of the two screens of the application
    ([add-parcelle-form.tsx] in its gallery and file-system variants, and the
    list screen [Index]) together with the facts about validation, ordering,
    deletion, export and image handling that the specification states. *)

From Stdlib Require Import ZArith NArith List String Ascii DecimalString Lia
  Sorting.Sorted Sorting.Permutation.
From stdpp Require Import base list gmap strings.

Local Open Scope Z_scope.

(** ** The JavaScript values the screens compute with *)

Module JS.

(** A JavaScript string is a finite sequence of UTF-16 code units. *)
Definition char16 := N.
Definition jsstring := list char16.

(** A string literal of the source.  The source text is UTF-8; its code
    points become code units, those above the basic plane a surrogate
    pair. *)
Fixpoint utf16 (fuel : nat) (bs : list N) : jsstring :=
  match fuel with
  | O => []
  | S fuel =>
      match bs with
      | [] => []
      | b :: r =>
          if (b <? 128)%N then b :: utf16 fuel r
          else match r with
          | b1 :: r1 =>
              if (b <? 224)%N then
                ((b - 192) * 64 + (b1 - 128))%N :: utf16 fuel r1
              else match r1 with
              | b2 :: r2 =>
                  if (b <? 240)%N then
                    ((b - 224) * 4096 + (b1 - 128) * 64 + (b2 - 128))%N
                      :: utf16 fuel r2
                  else match r2 with
                  | b3 :: r3 =>
                      let cp := ((b - 240) * 262144 + (b1 - 128) * 4096
                                 + (b2 - 128) * 64 + (b3 - 128))%N in
                      (55296 + (cp - 65536) / 1024)%N
                        :: (56320 + (cp - 65536) mod 1024)%N
                        :: utf16 fuel r3
                  | [] => []
                  end
              | [] => []
              end
          | [] => []
          end
      end
  end.

Definition lit (s : string) : jsstring :=
  let bs := List.map N_of_ascii (list_ascii_of_string s) in
  utf16 (length bs) bs.

(** [WhiteSpace] and [LineTerminator] code points of ECMAScript: the
    characters [String.prototype.trim] strips and [Number] skips. *)
Definition isWhiteSpace (c : char16) : bool :=
  ((c =? 9) || (c =? 10) || (c =? 11) || (c =? 12) || (c =? 13)
   || (c =? 32) || (c =? 160) || (c =? 5760)
   || ((8192 <=? c) && (c <=? 8202))
   || (c =? 8232) || (c =? 8233) || (c =? 8239) || (c =? 8287)
   || (c =? 12288) || (c =? 65279))%N.

Fixpoint trimStart (s : jsstring) : jsstring :=
  match s with
  | [] => []
  | c :: s' => if isWhiteSpace c then trimStart s' else s
  end.

Fixpoint trimEnd (s : jsstring) : jsstring :=
  match s with
  | [] => []
  | c :: s' =>
      match trimEnd s' with
      | [] => if isWhiteSpace c then [] else [c]
      | t => c :: t
      end
  end.

(** [s.trim()] *)
Definition trim (s : jsstring) : jsstring := trimEnd (trimStart s).

(** Truthiness of a string: only the empty string is falsy. *)
Definition truthy (s : jsstring) : bool :=
  match s with [] => false | _ => true end.

(** [a || b] on strings. *)
Definition or_else (a b : jsstring) : jsstring :=
  if truthy a then a else b.

(** [a === b] on strings. *)
Definition strict_eq (a b : jsstring) : bool := bool_decide (a = b).

(** *** Numbers

    [Number(s)] yields a binary64 value.  The screens only observe it
    through [isNaN] and a comparison with [0], so a finite result is kept
    as the exact decimal it was read from, [(-1)^neg * m * 10^e], and the
    rounding to binary64 is taken into account where the value is
    compared. *)
Inductive number :=
| NaN
| Infinity (neg : bool)
| Finite (neg : bool) (m : N) (e : Z).

Definition isNaN (x : number) : bool :=
  match x with NaN => true | _ => false end.

(** The nearest binary64 of a positive decimal [m * 10^e] is [+0] exactly
    when it does not exceed [2^-1075], half of the least subnormal (a tie
    goes to the even mantissa, which is zero). *)
Definition rounds_to_zero (m : N) (e : Z) : bool :=
  if (m =? 0)%N then true
  else if 0 <=? e then false
  else (Z.of_N m * 2 ^ 1075 <=? 10 ^ (- e)).

(** [x <= 0] *)
Definition le_zero (x : number) : bool :=
  match x with
  | NaN => false
  | Infinity neg => neg
  | Finite neg m e => neg || rounds_to_zero m e
  end.

(** Value of a digit in a base up to 16, if [c] is one. *)
Definition digit (base : N) (c : char16) : option N :=
  let v :=
    if ((48 <=? c) && (c <=? 57))%N then Some (c - 48)%N
    else if ((97 <=? c) && (c <=? 102))%N then Some (c - 87)%N
    else if ((65 <=? c) && (c <=? 70))%N then Some (c - 55)%N
    else None in
  match v with
  | Some d => if (d <? base)%N then Some d else None
  | None => None
  end.

(** The longest prefix of digits, as digit values, and what follows. *)
Fixpoint digits (base : N) (s : jsstring) : list N * jsstring :=
  match s with
  | [] => ([], [])
  | c :: s' =>
      match digit base c with
      | Some d => let '(ds, r) := digits base s' in (d :: ds, r)
      | None => ([], s)
      end
  end.

Definition digits_value (base : N) (ds : list N) : N :=
  fold_left (fun acc d => (acc * base + d)%N) ds 0%N.

(** [NonDecimalIntegerLiteral]: [0b], [0o] or [0x] followed by at least one
    digit of that base and nothing else. *)
Definition nonDecimal (s : jsstring) : option N :=
  match s with
  | 48%N :: p :: r =>
      let base :=
        if ((p =? 98) || (p =? 66))%N then Some 2%N
        else if ((p =? 111) || (p =? 79))%N then Some 8%N
        else if ((p =? 120) || (p =? 88))%N then Some 16%N
        else None in
      match base with
      | Some b =>
          match digits b r with
          | (d :: ds, []) => Some (digits_value b (d :: ds))
          | _ => None
          end
      | None => None
      end
  | _ => None
  end.

(** [ExponentPart] after its indicator: an optional sign, at least one
    decimal digit, then the end of the string. *)
Definition exponent (s : jsstring) : option Z :=
  let '(neg, r) :=
    match s with
    | 43%N :: r => (false, r)
    | 45%N :: r => (true, r)
    | _ => (false, s)
    end in
  match digits 10 r with
  | (d :: ds, []) =>
      let v := Z.of_N (digits_value 10 (d :: ds)) in
      Some (if neg then - v else v)
  | _ => None
  end.

(** [StrUnsignedDecimalLiteral] other than [Infinity], as mantissa and
    decimal exponent. *)
Definition unsignedDecimal (s : jsstring) : option (N * Z) :=
  let '(ip, r1) := digits 10 s in
  let '(fp, r2) :=
    match r1 with
    | 46%N :: r => digits 10 r
    | _ => ([], r1)
    end in
  match ip ++ fp with
  | [] => None
  | ds =>
      let m := digits_value 10 ds in
      let scale := Z.of_nat (length fp) in
      match r2 with
      | [] => Some (m, - scale)
      | c :: r3 =>
          if ((c =? 101) || (c =? 69))%N then
            match exponent r3 with
            | Some x => Some (m, x - scale)
            | None => None
            end
          else None
      end
  end.

(** [StrDecimalLiteral]: an optional sign, then [Infinity] or an unsigned
    decimal literal. *)
Definition decimal (s : jsstring) : number :=
  let '(neg, r) :=
    match s with
    | 43%N :: r => (false, r)
    | 45%N :: r => (true, r)
    | _ => (false, s)
    end in
  if strict_eq r (lit "Infinity") then Infinity neg
  else match unsignedDecimal r with
       | Some (m, e) => Finite neg m e
       | None => NaN
       end.

(** [Number(s)] for a string [s] ([StringToNumber]): surrounding white
    space is skipped, the empty string is [+0], anything that is not a
    [StrNumericLiteral] is [NaN]. *)
Definition Number (s : jsstring) : number :=
  match trim s with
  | [] => Finite false 0 0
  | t =>
      match nonDecimal t with
      | Some n => Finite false n 0
      | None => decimal t
      end
  end.

(** [n.toString()] for an integral number below [10^21], such as a
    reading of [Date.now()]. *)
Definition toString (n : Z) : jsstring :=
  lit (NilZero.string_of_int (Z.to_int n)).

(** *** Sorting

    [Array.prototype.sort] with a comparator.  A comparator result is a
    number or [NaN] ([None]), and [NaN] counts as [0].  The sort is stable;
    it is modelled by insertion, which is what every conforming sort
    computes when the comparator is consistent. *)
Section Sort.
Context {A : Type} (compareFn : A → A → option Z).

Definition sortCompare (a b : A) : Z :=
  match compareFn a b with Some v => v | None => 0 end.

Fixpoint insert_sorted (x : A) (l : list A) : list A :=
  match l with
  | [] => [x]
  | y :: l' =>
      if sortCompare x y <? 0 then x :: l
      else y :: insert_sorted x l'
  end.

Definition sort (l : list A) : list A :=
  fold_left (fun acc x => insert_sorted x acc) l [].
End Sort.

End JS.


(** ** The record kept by both screens *)

Module Model.
Import JS.

(** [{ uri: string; name: string; assetId?: string }] *)
Record Image := mkImage {
  uri : jsstring;
  name : jsstring;
  assetId : option jsstring
}.

Record Parcelle := mkParcelle {
  id : jsstring;
  numeroDeLot : jsstring;
  etatDeParcelle : jsstring;
  nombreDeLogement : jsstring;
  acheve : jsstring;
  enCours : jsstring;
  image : option Image;
  createdAt : jsstring
}.

Definition STORAGE_KEY : jsstring := lit "parcelles_data".

(** A spreadsheet cell, a worksheet as rows of cells with its column
    widths, and a workbook as its named sheets in order. *)
Inductive cell :=
| CNum (n : Z)
| CStr (s : jsstring)
| CEmpty.

Record sheet := mkSheet {
  cells : list (list cell);
  cols : list Z
}.

Definition workbook := list (jsstring * sheet).
End Model.

(** ** Effects

    A handler runs against the component state it closed over and a world:
    the value stored under [STORAGE_KEY] and the trace of calls made to the
    platform.  The stored value is kept as the collection that
    [JSON.stringify] wrote and [JSON.parse] reads back.  What a platform
    promise settles to is not decided by the application: every handler
    takes these outcomes as its environment. *)

Module Fx.
Import JS Model.

Inductive event :=
| Alert (title message : jsstring)
| ConsoleError (message : jsstring)
| ConsoleWarn (message : jsstring)
| ConsoleLog (message : jsstring)
| RequestCameraPermissionsAsync
| LaunchCameraAsync
| RequestPermissionsAsync
| CopyAsync (from to : jsstring)
| SaveToLibraryAsync (localUri : jsstring)
| DeleteAsync (fileUri : jsstring)
| DeleteAssetsAsync (assets : list jsstring)
| GetItem (key : jsstring)
| SetItem (key : jsstring) (value : list Parcelle)
| RemoveItem (key : jsstring)
| WriteAsStringAsync (fileUri : jsstring) (contents : workbook)
| IsAvailableAsync
| ShareAsync (url : jsstring)
| OnSave (parcelle : Parcelle)
| RouterBack.

Record World := mkWorld {
  storage : option (list Parcelle);
  trace : list event
}.

(** How a platform promise settles. *)
Inductive outcome (A : Type) :=
| Resolved (a : A)
| Rejected.
Arguments Resolved {A} a.
Arguments Rejected {A}.

(** How a block of statements completes. *)
Inductive completion (A : Type) :=
| Normal (a : A)
| Throw.
Arguments Normal {A} a.
Arguments Throw {A}.

(** An asynchronous function over component state [U]: awaits run in
    sequence, one after the other. *)
Record Async (U A : Type) := Run {
  run : U * World → completion A * (U * World)
}.
Arguments Run {U A} _.
Arguments run {U A} _ _.

#[export] Instance Async_ret {U} : MRet (Async U) :=
  λ A a, Run (λ s, (Normal a, s)).

#[export] Instance Async_bind {U} : MBind (Async U) :=
  λ A B f m, Run (λ s,
    match run m s with
    | (Normal a, s') => run (f a) s'
    | (Throw, s') => (Throw, s')
    end).

Definition throw {U A} : Async U A := Run (λ s, (Throw, s)).

(** [try { body } catch { handler }] *)
Definition try_catch {U A} (body handler : Async U A) : Async U A :=
  Run (λ s,
    match run body s with
    | (Normal a, s') => (Normal a, s')
    | (Throw, s') => run handler s'
    end).

(** [try { body } finally { final }] *)
Definition try_finally {U A} (body : Async U A) (final : Async U ())
  : Async U A :=
  Run (λ s,
    let '(c, s') := run body s in
    match run final s' with
    | (Normal _, s'') => (c, s'')
    | (Throw, s'') => (Throw, s'')
    end).

(** A state setter of [useState]. *)
Definition set {U} (f : U → U) : Async U () :=
  Run (λ s, (Normal (), (f s.1, s.2))).

(** A call to the platform that is only recorded. *)
Definition call {U} (e : event) : Async U () :=
  Run (λ s, (Normal (), (s.1, mkWorld (storage s.2) (trace s.2 ++ [e])))).

(** [await] of a platform call settling as [o]. *)
Definition await {U A} (e : event) (o : outcome A) : Async U A :=
  call e ;;
  match o with
  | Resolved a => mret a
  | Rejected => throw
  end.

(** [AsyncStorage.getItem(STORAGE_KEY)] *)
Definition getItem {U} (o : outcome ()) : Async U (option (list Parcelle)) :=
  await (GetItem STORAGE_KEY) o ;;
  Run (λ s, (Normal (storage s.2), s)).

(** [AsyncStorage.setItem(STORAGE_KEY, JSON.stringify(value))]: the value
    is stored when the call resolves. *)
Definition setItem {U} (value : list Parcelle) (o : outcome ())
  : Async U () :=
  await (SetItem STORAGE_KEY value) o ;;
  Run (λ s, (Normal (), (s.1, mkWorld (Some value) (trace s.2)))).

(** [AsyncStorage.removeItem(STORAGE_KEY)] *)
Definition removeItem {U} (o : outcome ()) : Async U () :=
  await (RemoveItem STORAGE_KEY) o ;;
  Run (λ s, (Normal (), (s.1, mkWorld None (trace s.2)))).

(** The component state and the world a handler leaves behind. *)
Definition exec {U A} (m : Async U A) (u : U) (w : World) : U * World :=
  (run m (u, w)).2.

Definition result {U A} (m : Async U A) (u : U) (w : World)
  : completion A :=
  (run m (u, w)).1.
End Fx.

(** ** The form screen: what both variants of [AddParcelleForm] share *)

Module Form.
Import JS Fx.

Record State := mkState {
  numeroDeLot : jsstring;
  etatDeParcelle : jsstring;
  nombreDeLogement : jsstring;
  image : option Model.Image;
  isLoading : bool;
  isSaving : bool;
  parcelles : list Model.Parcelle;
  acheve : jsstring;
  enCours : jsstring;
  (** an object with optional keys; a key may hold [undefined] *)
  errors : gmap string (option jsstring)
}.

Definition setNumeroDeLot v (s : State) :=
  mkState v (etatDeParcelle s) (nombreDeLogement s) (image s) (isLoading s)
    (isSaving s) (parcelles s) (acheve s) (enCours s) (errors s).
Definition setEtatDeParcelle v (s : State) :=
  mkState (numeroDeLot s) v (nombreDeLogement s) (image s) (isLoading s)
    (isSaving s) (parcelles s) (acheve s) (enCours s) (errors s).
Definition setNombreDeLogement v (s : State) :=
  mkState (numeroDeLot s) (etatDeParcelle s) v (image s) (isLoading s)
    (isSaving s) (parcelles s) (acheve s) (enCours s) (errors s).
Definition setImage v (s : State) :=
  mkState (numeroDeLot s) (etatDeParcelle s) (nombreDeLogement s) v
    (isLoading s) (isSaving s) (parcelles s) (acheve s) (enCours s)
    (errors s).
Definition setIsLoading v (s : State) :=
  mkState (numeroDeLot s) (etatDeParcelle s) (nombreDeLogement s) (image s)
    v (isSaving s) (parcelles s) (acheve s) (enCours s) (errors s).
Definition setIsSaving v (s : State) :=
  mkState (numeroDeLot s) (etatDeParcelle s) (nombreDeLogement s) (image s)
    (isLoading s) v (parcelles s) (acheve s) (enCours s) (errors s).
Definition setParcelles v (s : State) :=
  mkState (numeroDeLot s) (etatDeParcelle s) (nombreDeLogement s) (image s)
    (isLoading s) (isSaving s) v (acheve s) (enCours s) (errors s).
Definition setAcheve v (s : State) :=
  mkState (numeroDeLot s) (etatDeParcelle s) (nombreDeLogement s) (image s)
    (isLoading s) (isSaving s) (parcelles s) v (enCours s) (errors s).
Definition setEnCours v (s : State) :=
  mkState (numeroDeLot s) (etatDeParcelle s) (nombreDeLogement s) (image s)
    (isLoading s) (isSaving s) (parcelles s) (acheve s) v (errors s).
Definition setErrors v (s : State) :=
  mkState (numeroDeLot s) (etatDeParcelle s) (nombreDeLogement s) (image s)
    (isLoading s) (isSaving s) (parcelles s) (acheve s) (enCours s) v.

(** The [useState] initial values. *)
Definition initial : State :=
  mkState [] [] [] None false false [] [] [] ∅.

Definition loadParcelles (got : outcome ()) : Async State () :=
  try_catch
    (storedParcelles ← getItem got;
     match storedParcelles with
     | Some l => set (setParcelles l)
     | None => mret ()
     end)
    (call (ConsoleError (lit "Erreur lors du chargement des parcelles:"))).

Definition saveParcellesToStorage (parcellesData : list Model.Parcelle)
    (stored : outcome ()) : Async State () :=
  try_catch
    (setItem parcellesData stored)
    (call (ConsoleError (lit "Erreur lors de la sauvegarde des parcelles:")) ;;
     throw).

(** The object [newErrors] that [validateForm] fills, one statement after
    the other, from the state it closed over. *)
Definition newErrors (st : State) : gmap string (option jsstring) :=
  let newErrors : gmap string (option jsstring) := ∅ in
  let newErrors :=
    if negb (truthy (trim (numeroDeLot st))) then
      <["numeroDeLot" := Some (lit "N° de lot requis")]> newErrors
    else
      let existingParcelle :=
        List.find
          (λ p, strict_eq (Model.numeroDeLot p) (trim (numeroDeLot st)))
          (parcelles st) in
      match existingParcelle with
      | Some _ =>
          <["numeroDeLot" := Some (lit "Ce numéro de lot existe déjà")]>
            newErrors
      | None => newErrors
      end in
  let newErrors :=
    if negb (truthy (trim (etatDeParcelle st))) then
      <["etatDeParcelle" := Some (lit "État de parcelle requis")]> newErrors
    else newErrors in
  let newErrors :=
    if negb (truthy (trim (nombreDeLogement st))) then
      <["nombreDeLogement" := Some (lit "Nombre de logements requis")]>
        newErrors
    else if isNaN (Number (nombreDeLogement st))
            || le_zero (Number (nombreDeLogement st)) then
      <["nombreDeLogement" := Some (lit "Doit être un nombre positif")]>
        newErrors
    else newErrors in
  newErrors.

Definition validateForm (st : State) : Async State bool :=
  set (setErrors (newErrors st)) ;;
  mret (bool_decide (size (newErrors st) = 0%nat)).

(** [onChangeText] of the five inputs: the text is kept and a displayed
    error of that field is reset to [undefined]. *)
Definition clearError (key : string) (st : State)
  : gmap string (option jsstring) → gmap string (option jsstring) :=
  λ prev,
    match errors st !! key with
    | Some (Some (_ :: _)) => <[key := None]> prev
    | _ => prev
    end.

Definition onChangeText (key : string) (text : jsstring) (st : State)
  : Async State () :=
  (if String.eqb key "numeroDeLot" then set (setNumeroDeLot text)
   else if String.eqb key "etatDeParcelle" then set (setEtatDeParcelle text)
   else if String.eqb key "nombreDeLogement" then
     set (setNombreDeLogement text)
   else if String.eqb key "acheve" then set (setAcheve text)
   else if String.eqb key "enCours" then set (setEnCours text)
   else mret ()) ;;
  set (λ s, setErrors (clearError key st (errors s)) s).

(** The button under the preview: [setImage(null)]. *)
Definition removeImage : Async State () := set (setImage None).
End Form.

(** ** The gallery variant of the form ([src/app/add-parcelle-form.tsx]) *)

Module GalleryForm.
Import JS Fx Form.

(** What the platform answers while a picture is taken. *)
Record PickEnv := mkPickEnv {
  camera_granted : outcome bool;
  media_granted : outcome bool;
  (** the [uri] of the first asset, unless the capture was cancelled *)
  captured : outcome (option jsstring);
  pick_now : Z
}.

(** What the platform answers while a record is saved. *)
Record Env := mkEnv {
  (** [status === 'granted'] *)
  granted : outcome bool;
  (** the readings of [Date.now()], in the order of the source *)
  now_lot : Z;
  now_file : Z;
  copied : outcome ();
  saved : outcome ();
  deleted : outcome ();
  now_id : Z;
  now_createdAt : Z;
  stored : outcome ();
  (** whether the [onSave] prop was given *)
  onSave : bool
}.

Section Platform.
(** [FileSystem.cacheDirectory] and [Date.prototype.toISOString]. *)
Variable cacheDirectory : jsstring.
Variable toISOString : Z → jsstring.

Definition saveImageToMediaLibrary (st : State) (env : Env)
    (imageUri imageName : jsstring) : Async State (option Model.Image) :=
  try_catch
    (status ← await RequestPermissionsAsync (granted env);
     if negb status then
       call (Alert (lit "Permission requise")
               (lit "L'autorisation d'accès à la galerie est requise pour sauvegarder les photos.")) ;;
       mret None
     else
       let fileName :=
         lit "Parcelle_"
           ++ (if truthy (trim (numeroDeLot st))
               then trim (numeroDeLot st) else toString (now_lot env))
           ++ lit "_" ++ toString (now_file env) ++ lit ".jpg" in
       let tempUri := cacheDirectory ++ fileName in
       await (CopyAsync imageUri tempUri) (copied env) ;;
       await (SaveToLibraryAsync tempUri) (saved env) ;;
       await (DeleteAsync tempUri) (deleted env) ;;
       mret (Some (Model.mkImage imageUri fileName None)))
    (call (ConsoleError
             (lit "Erreur lors de la sauvegarde vers la galerie:")) ;;
     throw).

Definition pickImage (st : State) (env : PickEnv) : Async State () :=
  try_finally
    (try_catch
       (set (setIsLoading true) ;;
        cameraPermission ←
          await RequestCameraPermissionsAsync (camera_granted env);
        if negb cameraPermission then
          call (Alert (lit "Attention")
                  (lit "Veuillez autoriser l'accès à l'appareil photo"))
        else
          mediaPermission ←
            await RequestPermissionsAsync (media_granted env);
          (if negb mediaPermission then
             call (Alert (lit "Permission requise")
                     (lit "L'autorisation d'accès à la galerie est requise pour sauvegarder les photos dans votre galerie."))
           else mret ()) ;;
          result ← await LaunchCameraAsync (captured env);
          match result with
          | Some assetUri =>
              let fileName :=
                lit "Parcelle_"
                  ++ or_else (trim (numeroDeLot st)) (lit "temp")
                  ++ lit "_" ++ toString (pick_now env) ++ lit ".jpg" in
              set (setImage (Some (Model.mkImage assetUri fileName None)))
          | None => mret ()
          end)
       (call (ConsoleLog []) ;;
        call (Alert (lit "Erreur")
                (lit "Une erreur s'est produite lors de la prise de photo"))))
    (set (setIsLoading false)).

(** The record [handleSave] builds once the image is settled. *)
Definition newParcelle (st : State) (env : Env)
    (savedImage : option Model.Image) : Model.Parcelle :=
  Model.mkParcelle
    (toString (now_id env))
    (trim (numeroDeLot st))
    (trim (etatDeParcelle st))
    (trim (nombreDeLogement st))
    (or_else (trim (acheve st)) (lit ""))
    (or_else (trim (enCours st)) (lit ""))
    savedImage
    (toISOString (now_createdAt env)).

Definition handleSave (st : State) (env : Env) : Async State () :=
  valid ← validateForm st;
  if negb valid then mret ()
  else
    try_finally
      (try_catch
         (set (setIsSaving true) ;;
          savedImage ←
            match image st with
            | Some img =>
                mediaAsset ←
                  saveImageToMediaLibrary st env
                    (Model.uri img) (Model.name img);
                match mediaAsset with
                | Some a =>
                    mret (Some (Model.mkImage (Model.uri a) (Model.name a)
                                  (Model.assetId a)))
                | None => mret (Some img)
                end
            | None => mret None
            end;
          let newParcelle := newParcelle st env savedImage in
          let updatedParcelles := parcelles st ++ [newParcelle] in
          set (setParcelles updatedParcelles) ;;
          saveParcellesToStorage updatedParcelles (stored env) ;;
          (if onSave env then call (OnSave newParcelle) else mret ()) ;;
          call (Alert (lit "Succès")
                  (match savedImage with
                   | Some _ => lit "Parcelle sauvegardée avec succès! La photo est maintenant disponible dans votre galerie."
                   | None => lit "Parcelle sauvegardée avec succès!"
                   end)) ;;
          set (setNumeroDeLot (lit "")) ;;
          set (setEtatDeParcelle (lit "")) ;;
          set (setNombreDeLogement (lit "")) ;;
          set (setAcheve (lit "")) ;;
          set (setEnCours (lit "")) ;;
          set (setImage None) ;;
          set (setErrors ∅) ;;
          call RouterBack)
         (call (ConsoleError
                  (lit "Erreur lors de la sauvegarde de la parcelle:")) ;;
          call (Alert (lit "Erreur")
                  (lit "Une erreur s'est produite lors de la sauvegarde des données"))))
      (set (setIsSaving false)).

(** The states the screen goes through: it mounts, loads the stored
    collection, and then answers the user's gestures. *)
Inductive reachable : State → Prop :=
| reach_mount : reachable initial
| reach_load st w got :
    reachable st → reachable (exec (loadParcelles got) st w).1
| reach_text st w key text :
    reachable st → reachable (exec (onChangeText key text st) st w).1
| reach_pick st w env :
    reachable st → reachable (exec (pickImage st env) st w).1
| reach_remove st w :
    reachable st → reachable (exec removeImage st w).1
| reach_save st w env :
    reachable st → reachable (exec (handleSave st env) st w).1.
End Platform.
End GalleryForm.

(** ** The file-system variant of the form *)

Module FileForm.
Import JS Fx Form.

Record PickEnv := mkPickEnv {
  camera_granted : outcome bool;
  captured : outcome (option jsstring);
  pick_now : Z
}.

Record Env := mkEnv {
  now_file : Z;
  copied : outcome ();
  now_id : Z;
  now_createdAt : Z;
  stored : outcome ();
  onSave : bool
}.

Section Platform.
(** [FileSystem.documentDirectory] and [Date.prototype.toISOString]. *)
Variable documentDirectory : jsstring.
Variable toISOString : Z → jsstring.

Definition IMAGES_DIRECTORY : jsstring :=
  documentDirectory ++ lit "parcelle_images/".

Definition saveImageToFileSystem (env : Env)
    (imageUri imageName : jsstring) : Async State jsstring :=
  try_catch
    (let fileName := toString (now_file env) ++ lit "_" ++ imageName in
     let newPath := IMAGES_DIRECTORY ++ fileName in
     await (CopyAsync imageUri newPath) (copied env) ;;
     mret newPath)
    (call (ConsoleError (lit "Erreur lors de la sauvegarde de l'image:")) ;;
     throw).

Definition pickImage (st : State) (env : PickEnv) : Async State () :=
  try_finally
    (try_catch
       (set (setIsLoading true) ;;
        permissionResult ←
          await RequestCameraPermissionsAsync (camera_granted env);
        if negb permissionResult then
          call (Alert (lit "Attention")
                  (lit "Veuillez autoriser l'accès à l'appareil photo"))
        else
          result ← await LaunchCameraAsync (captured env);
          match result with
          | Some assetUri =>
              let fileName :=
                lit "parcelle_"
                  ++ (if truthy (numeroDeLot st) then numeroDeLot st
                      else toString (pick_now env))
                  ++ lit ".jpg" in
              set (setImage (Some (Model.mkImage assetUri fileName None)))
          | None => mret ()
          end)
       (call (ConsoleLog []) ;;
        call (Alert (lit "Erreur")
                (lit "Une erreur s'est produite lors de la prise de photo"))))
    (set (setIsLoading false)).

Definition newParcelle (st : State) (env : Env)
    (savedImagePath : option jsstring) : Model.Parcelle :=
  Model.mkParcelle
    (toString (now_id env))
    (trim (numeroDeLot st))
    (trim (etatDeParcelle st))
    (trim (nombreDeLogement st))
    (or_else (trim (acheve st)) (lit ""))
    (or_else (trim (enCours st)) (lit ""))
    (match savedImagePath with
     | Some path =>
         if truthy path then
           Some (Model.mkImage path
                   (or_else
                      (match image st with
                       | Some img => Model.name img
                       | None => []
                       end)
                      (lit ""))
                   None)
         else None
     | None => None
     end)
    (toISOString (now_createdAt env)).

Definition handleSave (st : State) (env : Env) : Async State () :=
  valid ← validateForm st;
  if negb valid then mret ()
  else
    try_finally
      (try_catch
         (set (setIsSaving true) ;;
          savedImagePath ←
            match image st with
            | Some img =>
                path ← saveImageToFileSystem env
                         (Model.uri img) (Model.name img);
                mret (Some path)
            | None => mret None
            end;
          let newParcelle := newParcelle st env savedImagePath in
          let updatedParcelles := parcelles st ++ [newParcelle] in
          set (setParcelles updatedParcelles) ;;
          saveParcellesToStorage updatedParcelles (stored env) ;;
          (if onSave env then call (OnSave newParcelle) else mret ()) ;;
          set (setNumeroDeLot (lit "")) ;;
          set (setEtatDeParcelle (lit "")) ;;
          set (setNombreDeLogement (lit "")) ;;
          set (setAcheve (lit "")) ;;
          set (setEnCours (lit "")) ;;
          set (setImage None) ;;
          set (setErrors ∅) ;;
          call RouterBack)
         (call (ConsoleError
                  (lit "Erreur lors de la sauvegarde de la parcelle:")) ;;
          call (Alert (lit "Erreur")
                  (lit "Une erreur s'est produite lors de la sauvegarde des données"))))
      (set (setIsSaving false)).
End Platform.
End FileForm.

(** ** The part of the [xlsx] library the exporter calls *)

Module XLSX.
Import JS Model.

(** A row of [json_to_sheet]'s input: an object with its keys in
    insertion order. *)
Definition object := list (jsstring * cell).

Definition book_new : workbook := [].

(** The keys of a row that the header does not have yet, appended to it. *)
Definition add_keys (hdr : list jsstring) (row : object) : list jsstring :=
  fold_left (λ h kv, if bool_decide (kv.1 ∈ h) then h else h ++ [kv.1])
    row hdr.

(** The header of [json_to_sheet]: every key, in order of first
    appearance. *)
Definition keys (data : list object) : list jsstring :=
  fold_left add_keys data [].

Definition value (row : object) (key : jsstring) : cell :=
  match List.find (λ kv, strict_eq kv.1 key) row with
  | Some kv => kv.2
  | None => CEmpty
  end.

(** One header row, then one row per object. *)
Definition json_to_sheet (data : list object) : sheet :=
  let hdr := keys data in
  mkSheet (List.map CStr hdr :: List.map (λ row, List.map (value row) hdr) data)
          [].

Definition book_append_sheet (wb : workbook) (ws : sheet) (name : jsstring)
  : workbook :=
  wb ++ [(name, ws)].
End XLSX.

(** ** The list screen ([Index]) *)

Module Index.
Import JS Fx.

Record State := mkState {
  parcelles : list Model.Parcelle;
  isLoading : bool;
  isDeleting : option jsstring;
  refreshing : bool;
  isExporting : bool
}.

Definition setParcelles v (s : State) :=
  mkState v (isLoading s) (isDeleting s) (refreshing s) (isExporting s).
Definition setIsLoading v (s : State) :=
  mkState (parcelles s) v (isDeleting s) (refreshing s) (isExporting s).
Definition setIsDeleting v (s : State) :=
  mkState (parcelles s) (isLoading s) v (refreshing s) (isExporting s).
Definition setIsExporting v (s : State) :=
  mkState (parcelles s) (isLoading s) (isDeleting s) (refreshing s) v.

Definition initial : State := mkState [] true None false false.

(** What the platform answers while a record is deleted. *)
Record DeleteEnv := mkDeleteEnv {
  (** the button pressed in the confirmation dialog *)
  confirmed : bool;
  stored : outcome ();
  (** [status === 'granted'] *)
  granted : outcome bool;
  deleted : outcome ();
  (** the read of the reload after a failure *)
  reloaded : outcome ()
}.

(** What the platform answers during an export. *)
Record ExportEnv := mkExportEnv {
  export_now : Z;
  written : outcome ();
  available : outcome bool;
  shared : outcome ()
}.

(** The text before the first [c]: [s.split(c)[0]]. *)
Fixpoint before (c : char16) (s : jsstring) : jsstring :=
  match s with
  | [] => []
  | x :: s' => if (x =? c)%N then [] else x :: before c s'
  end.

Section Platform.
(** [new Date(s).getTime()], which is [NaN] for a string that is not a
    date; [Date.prototype.toLocaleDateString] with the options
    [formatDate] passes; [Date.prototype.toISOString]; and
    [FileSystem.documentDirectory]. *)
Variable getTime : jsstring → option Z.
Variable toLocaleDateString : option Z → jsstring.
Variable toISOString : Z → jsstring.
Variable documentDirectory : jsstring.

(** The comparator of [loadParcelles]:
    [new Date(b.createdAt).getTime() - new Date(a.createdAt).getTime()].
    Only its sign is used, which the subtraction of two time values
    gives exactly. *)
Definition compareFn (a b : Model.Parcelle) : option Z :=
  match getTime (Model.createdAt b), getTime (Model.createdAt a) with
  | Some tb, Some ta => Some (tb - ta)
  | _, _ => None
  end.

Definition loadParcelles (got : outcome ()) : Async State () :=
  try_finally
    (try_catch
       (set (setIsLoading true) ;;
        storedParcelles ← getItem got;
        match storedParcelles with
        | Some parsedParcelles =>
            let sortedParcelles := sort compareFn parsedParcelles in
            set (setParcelles sortedParcelles)
        | None => set (setParcelles [])
        end)
       (call (ConsoleError (lit "Error loading parcelles:")) ;;
        call (Alert (lit "Erreur")
                (lit "Une erreur s'est produite lors du chargement des données"))))
    (set (setIsLoading false)).


Definition deleteImageFromMediaLibrary (env : DeleteEnv)
    (assetId : option jsstring) : Async State () :=
  match assetId with
  | Some (c :: a) =>
      try_catch
        (status ← await RequestPermissionsAsync (granted env);
         if negb status then
           call (ConsoleWarn (lit "Media library permission not granted"))
         else
           await (DeleteAssetsAsync [c :: a]) (deleted env) ;;
           call (ConsoleLog (lit "Image deleted from media library")))
        (call (ConsoleError
                 (lit "Error deleting image from media library:")))
  | _ => mret ()
  end.

(** The [onPress] of the dialog's destructive button.  The reload in
    the [catch] block is started there and not awaited; it writes other
    state variables than the [finally] block, so running it first gives
    the same final state. *)
Definition deleteParcelle_onPress (st : State) (env : DeleteEnv)
    (parcelleId : jsstring) (image : option Model.Image)
  : Async State () :=
  try_finally
    (try_catch
       (set (setIsDeleting (Some parcelleId)) ;;
        let updatedParcelles :=
          List.filter
            (λ parcelle, negb (strict_eq (Model.id parcelle) parcelleId))
            (parcelles st) in
        set (setParcelles updatedParcelles) ;;
        setItem updatedParcelles (stored env) ;;
        match image with
        | Some img =>
            match Model.assetId img with
            | Some (c :: a) =>
                deleteImageFromMediaLibrary env (Model.assetId img)
            | _ => mret ()
            end
        | None => mret ()
        end ;;
        call (Alert (lit "Succès") (lit "Parcelle supprimée avec succès")))
       (call (ConsoleError (lit "Error deleting parcelle:")) ;;
        call (Alert (lit "Erreur")
                (lit "Une erreur s'est produite lors de la suppression")) ;;
        loadParcelles (reloaded env)))
    (set (setIsDeleting None)).

Definition deleteParcelle (st : State) (env : DeleteEnv)
    (parcelleId : jsstring) (image : option Model.Image)
  : Async State () :=
  call (Alert (lit "Confirmer la suppression")
          (lit "Êtes-vous sûr de vouloir supprimer cette parcelle? Cette action ne peut pas être annulée.")) ;;
  if confirmed env then deleteParcelle_onPress st env parcelleId image
  else mret ().

Definition formatDate (dateString : jsstring) : jsstring :=
  toLocaleDateString (getTime dateString).

(** The row [exportToExcel] makes of a record at position [index]. *)
Definition excelRow (index : nat) (parcelle : Model.Parcelle)
  : XLSX.object :=
  [ (lit "N° Séquentiel", Model.CNum (Z.of_nat index + 1));
    (lit "N° de Lot", Model.CStr (Model.numeroDeLot parcelle));
    (lit "État de Parcelle", Model.CStr (Model.etatDeParcelle parcelle));
    (lit "Nombre de Logements",
      Model.CStr (Model.nombreDeLogement parcelle));
    (lit "Étages Achevés",
      Model.CStr (or_else (Model.acheve parcelle) (lit "")));
    (lit "Étages en Cours",
      Model.CStr (or_else (Model.enCours parcelle) (lit "")));
    (lit "Nom de l'Image",
      Model.CStr
        (or_else
           (match Model.image parcelle with
            | Some img => Model.name img
            | None => []
            end)
           (lit "Aucune image")));
    (lit "Contient une Image",
      Model.CStr
        (match Model.image parcelle with
         | Some _ => lit "Oui"
         | None => lit "Non"
         end));
    (lit "Photo dans Galerie",
      Model.CStr
        (match Model.image parcelle with
         | Some (Model.mkImage _ _ (Some (_ :: _))) => lit "Oui"
         | _ => lit "Non"
         end));
    (lit "Date d'Ajout", Model.CStr (formatDate (Model.createdAt parcelle)));
    (lit "ID Parcelle", Model.CStr (Model.id parcelle)) ].

Definition colWidths : list Z :=
  [15; 12; 18; 18; 15; 15; 20; 18; 18; 25; 20].

(** The workbook [exportToExcel] builds from the collection. *)
Definition excelWorkbook (parcelles : list Model.Parcelle)
  : Model.workbook :=
  let excelData := imap excelRow parcelles in
  let wb := XLSX.book_new in
  let ws := XLSX.json_to_sheet excelData in
  let ws := Model.mkSheet (Model.cells ws) colWidths in
  XLSX.book_append_sheet wb ws (lit "Liste des Parcelles").

Definition exportToExcel (st : State) (env : ExportEnv)
  : Async State () :=
  if (length (parcelles st) =? 0)%nat then
    call (Alert (lit "Attention") (lit "Aucune donnée à exporter"))
  else
    try_finally
      (try_catch
         (set (setIsExporting true) ;;
          let wb := excelWorkbook (parcelles st) in
          let currentDate := before 84%N (toISOString (export_now env)) in
          let fileName :=
            lit "parcelles_list_" ++ currentDate ++ lit ".xlsx" in
          let fileUri := documentDirectory ++ fileName in
          await (WriteAsStringAsync fileUri wb) (written env) ;;
          isAvailable ← await IsAvailableAsync (available env);
          if (isAvailable : bool) then
            await (ShareAsync fileUri) (shared env) ;;
            call (Alert (lit "Succès")
                    (lit "Fichier Excel créé et sauvegardé avec succès"
                       ++ [10%N] ++ lit "Nom du fichier: " ++ fileName))
          else
            call (Alert (lit "Succès")
                    (lit "Fichier Excel créé et sauvegardé dans:"
                       ++ [10%N] ++ fileUri)))
         (call (ConsoleError (lit "Error exporting to Excel:")) ;;
          call (Alert (lit "Erreur")
                  (lit "Une erreur s'est produite lors de la création du fichier Excel"))))
      (set (setIsExporting false)).
End Platform.
End Index.

(** ** The list screen: deleting everything *)

Module DeleteAll.
Import JS Fx.

(** What the platform answers while the whole collection is deleted. *)
Record Env := mkEnv {
  (** the button pressed in the confirmation dialog *)
  confirmed : bool;
  (** [status === 'granted'] *)
  granted : outcome bool;
  deleted : outcome ();
  removed : outcome ()
}.

(** [parcelles.map(parcelle => parcelle.image?.assetId).filter(Boolean)] *)
Definition assetIds (parcelles : list Model.Parcelle) : list jsstring :=
  List.flat_map
    (λ assetId : option jsstring,
       match assetId with
       | Some (c :: a) => [c :: a]
       | _ => []
       end)
    (List.map
       (λ parcelle,
          match Model.image parcelle with
          | Some img => Model.assetId img
          | None => None
          end)
       parcelles).

Definition deleteAllMediaLibraryImages (st : Index.State) (env : Env)
  : Async Index.State () :=
  try_catch
    (status ← await RequestPermissionsAsync (granted env);
     if negb status then
       call (ConsoleWarn (lit "Media library permission not granted"))
     else
       let assetIds := assetIds (Index.parcelles st) in
       if (0 <? length assetIds)%nat then
         await (DeleteAssetsAsync assetIds) (deleted env) ;;
         call (ConsoleLog
                 (lit "Deleted " ++ toString (Z.of_nat (length assetIds))
                    ++ lit " images from media library"))
       else mret ())
    (call (ConsoleError (lit "Error deleting images from media library:"))).

(** The [onPress] of the dialog's destructive button. *)
Definition deleteAllParcelles_onPress (st : Index.State) (env : Env)
  : Async Index.State () :=
  try_finally
    (try_catch
       (set (Index.setIsLoading true) ;;
        deleteAllMediaLibraryImages st env ;;
        removeItem (removed env) ;;
        set (Index.setParcelles []) ;;
        call (Alert (lit "Succès")
                (lit "Toutes les parcelles ont été supprimées")))
       (call (ConsoleError (lit "Error deleting all parcelles:")) ;;
        call (Alert (lit "Erreur")
                (lit "Une erreur s'est produite lors de la suppression"))))
    (set (Index.setIsLoading false)).

Definition deleteAllParcelles (st : Index.State) (env : Env)
  : Async Index.State () :=
  call (Alert (lit "Confirmer la suppression")
          (lit "Êtes-vous sûr de vouloir supprimer toutes les parcelles? Cette action ne peut pas être annulée.")) ;;
  if confirmed env then deleteAllParcelles_onPress st env
  else mret ().
End DeleteAll.

(** ** The validator as the specification words it

    Three rules, each over its own field, to be compared with what
    [Form.validateForm] computes. *)

Module Validator.
Import JS.

(** The value parses as a number and is [> 0]. *)
Definition positive (x : number) : bool :=
  negb (isNaN x) && negb (le_zero x).

(** [numeroDeLot] is non-empty after trim, and not equal (post-trim) to
    any existing record's [numeroDeLot]. *)
Definition rule_numeroDeLot (candidate : jsstring)
    (existing : list Model.Parcelle) : gmap string (option jsstring) :=
  if bool_decide (trim candidate = []) then
    {[ "numeroDeLot" := Some (lit "N° de lot requis") ]}
  else if bool_decide
            (trim candidate ∈ List.map Model.numeroDeLot existing) then
    {[ "numeroDeLot" := Some (lit "Ce numéro de lot existe déjà") ]}
  else ∅.

(** [etatDeParcelle] is non-empty after trim. *)
Definition rule_etatDeParcelle (candidate : jsstring)
  : gmap string (option jsstring) :=
  if bool_decide (trim candidate = []) then
    {[ "etatDeParcelle" := Some (lit "État de parcelle requis") ]}
  else ∅.

(** [nombreDeLogement] is non-empty after trim; the trimmed value parses
    as a number [> 0]; otherwise a distinct error. *)
Definition rule_nombreDeLogement (candidate : jsstring)
  : gmap string (option jsstring) :=
  if bool_decide (trim candidate = []) then
    {[ "nombreDeLogement" := Some (lit "Nombre de logements requis") ]}
  else if positive (Number (trim candidate)) then ∅
  else {[ "nombreDeLogement" := Some (lit "Doit être un nombre positif") ]}.

(** A string with no white space at either end. *)
Definition trimmed (s : jsstring) : Prop := trim s = s.

(** A record whose text fields are all trimmed. *)
Definition normalized (p : Model.Parcelle) : Prop :=
  trimmed (Model.numeroDeLot p) ∧ trimmed (Model.etatDeParcelle p)
  ∧ trimmed (Model.nombreDeLogement p) ∧ trimmed (Model.acheve p)
  ∧ trimmed (Model.enCours p).

(** A string that does not start with white space. *)
Definition no_lead (s : jsstring) : Prop :=
  match s with [] => True | c :: _ => isWhiteSpace c = false end.
End Validator.

(** ** Counting over a collection *)

Module Store.
Import JS.

(** The records a deletion by identifier keeps. *)
Definition kept (parcelleId : jsstring) (l : list Model.Parcelle)
  : list Model.Parcelle :=
  List.filter (λ parcelle, negb (strict_eq (Model.id parcelle) parcelleId)) l.

End Store.

(** ** The collections the application holds

    A collection every record of which went through a form: it starts
    empty, a form appends to the collection it holds, the list screen shows
    what is stored, and a confirmed deletion keeps what it keeps. *)

Module App.
Import JS Fx.

Section Platform.
Variable cacheDirectory documentDirectory : jsstring.
Variable toISOString : Z → jsstring.
Variable getTime : jsstring → option Z.

Inductive built : list Model.Parcelle → Prop :=
| built_empty : built []
| built_gallery st env w :
    built (Form.parcelles st) →
    built (Form.parcelles
             (exec (GalleryForm.handleSave cacheDirectory toISOString
                      st env) st w).1)
| built_file st env w :
    built (Form.parcelles st) →
    built (Form.parcelles
             (exec (FileForm.handleSave documentDirectory toISOString
                      st env) st w).1)
| built_form_load st got w :
    built (Form.parcelles st) →
    (∀ l, storage w = Some l → built l) →
    built (Form.parcelles (exec (Form.loadParcelles got) st w).1)
| built_load st got w :
    built (Index.parcelles st) →
    (∀ l, storage w = Some l → built l) →
    built (Index.parcelles
             (exec (Index.loadParcelles getTime got) st w).1)
| built_delete st env parcelleId image w :
    built (Index.parcelles st) →
    (∀ l, storage w = Some l → built l) →
    built (Index.parcelles
             (exec (Index.deleteParcelle getTime st env parcelleId image)
                st w).1).
End Platform.
End App.

(** ** The exported table as the specification words it *)

Module Exporter.
Import JS.

(** The eleven columns, in their fixed order: sequential index, lot number,
    state, unit count, floors completed, floors in progress, image name,
    has-image flag, has-gallery flag, formatted creation date, raw id. *)
Definition columns : list jsstring :=
  [ lit "N° Séquentiel"; lit "N° de Lot"; lit "État de Parcelle";
    lit "Nombre de Logements"; lit "Étages Achevés"; lit "Étages en Cours";
    lit "Nom de l'Image"; lit "Contient une Image"; lit "Photo dans Galerie";
    lit "Date d'Ajout"; lit "ID Parcelle" ].

Definition flag (b : bool) : jsstring := if b then lit "Oui" else lit "Non".

Definition hasGalleryAsset (p : Model.Parcelle) : bool :=
  match Model.image p with
  | Some img =>
      match Model.assetId img with
      | Some (_ :: _) => true
      | _ => false
      end
  | None => false
  end.

Definition imageName (p : Model.Parcelle) : jsstring :=
  match Model.image p with
  | Some img =>
      match Model.name img with
      | [] => lit "Aucune image"
      | n => n
      end
  | None => lit "Aucune image"
  end.

(** The data row of the record at position [index] of the collection,
    given the formatted creation date. *)
Definition row (formatted : jsstring) (index : nat) (p : Model.Parcelle)
  : list Model.cell :=
  [ Model.CNum (Z.of_nat index + 1);
    Model.CStr (Model.numeroDeLot p);
    Model.CStr (Model.etatDeParcelle p);
    Model.CStr (Model.nombreDeLogement p);
    Model.CStr (Model.acheve p);
    Model.CStr (Model.enCours p);
    Model.CStr (imageName p);
    Model.CStr (flag (bool_decide (is_Some (Model.image p))));
    Model.CStr (flag (hasGalleryAsset p));
    Model.CStr formatted;
    Model.CStr (Model.id p) ].
End Exporter.

(** ** A platform and a few records to run the screens on *)

Module Example.
Import JS Fx.

Definition cacheDirectory : jsstring := lit "file:///cache/".
Definition documentDirectory : jsstring := lit "file:///documents/".

(** Three instants of January 2024, a day apart. *)
Definition t1 : Z := 1704067200000.
Definition t2 : Z := 1704153600000.
Definition t3 : Z := 1704240000000.

Definition toISOString (t : Z) : jsstring :=
  if t =? t1 then lit "2024-01-01T00:00:00.000Z"
  else if t =? t2 then lit "2024-01-02T00:00:00.000Z"
  else if t =? t3 then lit "2024-01-03T00:00:00.000Z"
  else lit "1970-01-01T00:00:00.000Z".

Definition getTime (s : jsstring) : option Z :=
  if strict_eq s (lit "2024-01-01T00:00:00.000Z") then Some t1
  else if strict_eq s (lit "2024-01-02T00:00:00.000Z") then Some t2
  else if strict_eq s (lit "2024-01-03T00:00:00.000Z") then Some t3
  else if strict_eq s (lit "1970-01-01T00:00:00.000Z") then Some 0
  else None.

Definition toLocaleDateString (t : option Z) : jsstring :=
  match t with
  | Some t => toISOString t
  | None => lit "Invalid Date"
  end.

Definition photo : Model.Image :=
  Model.mkImage (lit "file:///camera/1.jpg") (lit "Parcelle_A1_1.jpg") None.

Definition r1 : Model.Parcelle :=
  Model.mkParcelle (lit "1704067200000") (lit "A1") (lit "Bon") (lit "10")
    (lit "") (lit "") None (toISOString t1).
Definition r2 : Model.Parcelle :=
  Model.mkParcelle (lit "1704153600000") (lit "A2") (lit "Bon") (lit "4")
    (lit "RDC") (lit "R+1") (Some photo) (toISOString t2).
Definition r3 : Model.Parcelle :=
  Model.mkParcelle (lit "1704240000000") (lit "A3") (lit "Moyen") (lit "7")
    (lit "") (lit "R+2") None (toISOString t3).


Definition world (l : list Model.Parcelle) : World := mkWorld (Some l) [].

(** A form filled in by the user over the collection it loaded. *)
Definition form (lot etat nombre : string) (l : list Model.Parcelle)
  : Form.State :=
  Form.mkState (lit lot) (lit etat) (lit nombre) None false false l
    (lit "") (lit "") ∅.

Definition list_screen (l : list Model.Parcelle) : Index.State :=
  Index.mkState l false None false false.

(** Every platform call succeeds. *)
Definition gallery_ok : GalleryForm.Env :=
  GalleryForm.mkEnv (Resolved true) t1 t1 (Resolved ()) (Resolved ())
    (Resolved ()) t2 t2 (Resolved ()) false.
Definition file_ok : FileForm.Env :=
  FileForm.mkEnv t1 (Resolved ()) t2 t2 (Resolved ()) false.
Definition delete_ok : Index.DeleteEnv :=
  Index.mkDeleteEnv true (Resolved ()) (Resolved true) (Resolved ())
    (Resolved ()).
(** The gallery refuses the deletion of the asset. *)
Definition delete_asset_fails : Index.DeleteEnv :=
  Index.mkDeleteEnv true (Resolved ()) (Resolved true) Rejected (Resolved ()).
Definition export_ok : Index.ExportEnv :=
  Index.mkExportEnv t3 (Resolved ()) (Resolved true) (Resolved ()).
End Example.

(** * Properties *)

#[local] Arguments JS.lit : simpl never.
#[local] Arguments JS.toString : simpl never.
#[local] Arguments JS.trim : simpl never.
#[local] Arguments Form.newErrors : simpl never.

(** ** Trimming *)

Section TrimFacts.
Import JS Validator.
Lemma trimStart_no_lead s : no_lead (trimStart s).
Proof.
  induction s as [|c s IH]; simpl; [done|].
  destruct (isWhiteSpace c) eqn:E; [done|]. simpl. done.
Qed.

Lemma trimStart_fixed s : no_lead s → trimStart s = s.
Proof. destruct s as [|c s]; simpl; [done|]. by intros ->. Qed.

Lemma trimEnd_no_lead s : no_lead s → no_lead (trimEnd s).
Proof.
  destruct s as [|c s]; simpl; [done|]. intros Hc.
  destruct (trimEnd s); simpl; [by rewrite Hc|done].
Qed.

Lemma trimEnd_idem s : trimEnd (trimEnd s) = trimEnd s.
Proof.
  induction s as [|c s IH]; simpl; [done|].
  destruct (trimEnd s) as [|d t] eqn:E.
  - destruct (isWhiteSpace c) eqn:Ec; simpl; [done|]. by rewrite Ec.
  - simpl in *. by rewrite IH.
Qed.

Lemma trim_idem s : trim (trim s) = trim s.
Proof.
  unfold trim.
  rewrite (trimStart_fixed (trimEnd _)).
  - apply trimEnd_idem.
  - apply trimEnd_no_lead, trimStart_no_lead.
Qed.

Lemma Number_trim s : Number (trim s) = Number s.
Proof. unfold Number. by rewrite trim_idem. Qed.

Lemma or_else_empty s : or_else s (lit "") = s.
Proof. by destruct s. Qed.
End TrimFacts.

(** ** Validation *)

Section ValidationFacts.
Import JS Fx Validator.
Implicit Types (st : Form.State) (s x : jsstring) (l : list Model.Parcelle).

Lemma negb_truthy s : negb (truthy s) = bool_decide (s = []).
Proof. by destruct s. Qed.

Lemma find_numeroDeLot_None x l :
  List.find (λ p, strict_eq (Model.numeroDeLot p) x) l = None
  ↔ x ∉ List.map Model.numeroDeLot l.
Proof.
  induction l as [|p l IH]; simpl.
  - split; [intros _; apply not_elem_of_nil|done].
  - unfold strict_eq at 1. rewrite not_elem_of_cons.
    case_bool_decide as Hp.
    + split; [done|]. intros [Hne _]. by destruct Hne.
    + rewrite IH. split; [|tauto]. intros Hni. split; [congruence|done].
Qed.

Lemma find_numeroDeLot_Some x l :
  x ∈ List.map Model.numeroDeLot l →
  ∃ p, List.find (λ p, strict_eq (Model.numeroDeLot p) x) l = Some p.
Proof.
  intros Hin.
  destruct (List.find _ l) as [p|] eqn:Hfind; [by exists p|].
  by apply find_numeroDeLot_None in Hfind.
Qed.

Ltac map_cases :=
  apply map_eq; intros k;
  repeat (rewrite ?lookup_union, ?lookup_insert, ?lookup_singleton,
            ?lookup_empty;
          try case_decide; simplify_eq; try done).

Lemma newErrors_rules st :
  Form.newErrors st
  = rule_numeroDeLot (Form.numeroDeLot st) (Form.parcelles st)
    ∪ rule_etatDeParcelle (Form.etatDeParcelle st)
    ∪ rule_nombreDeLogement (Form.nombreDeLogement st).
Proof.
  unfold Form.newErrors, rule_numeroDeLot, rule_etatDeParcelle,
    rule_nombreDeLogement, positive.
  rewrite !negb_truthy, Number_trim.
  destruct (List.find _ (Form.parcelles st)) as [p|] eqn:Hfind;
    [ rewrite (bool_decide_eq_true_2 (trim (Form.numeroDeLot st) ∈ _))
        by (destruct (decide (trim (Form.numeroDeLot st)
               ∈ List.map Model.numeroDeLot (Form.parcelles st))) as [|Hn];
            [done | apply find_numeroDeLot_None in Hn; congruence])
    | rewrite (bool_decide_eq_false_2 (trim (Form.numeroDeLot st) ∈ _))
        by (by apply find_numeroDeLot_None) ];
    destruct (isNaN (Number (Form.nombreDeLogement st))),
      (le_zero (Number (Form.nombreDeLogement st))); simpl;
    destruct (bool_decide (trim (Form.nombreDeLogement st) = []));
    destruct (bool_decide (trim (Form.etatDeParcelle st) = []));
    destruct (bool_decide (trim (Form.numeroDeLot st) = []));
    map_cases.
Qed.
End ValidationFacts.


(** ** Sorting with a comparator that follows a key *)

Section SortFacts.
Import JS.
Context {A : Type} (compareFn : A → A → option Z).
Context (key : A → Z) (P : A → Prop).
Hypothesis compare_key :
  ∀ a b, P a → P b → sortCompare compareFn a b = key b - key a.

(** Descending order of the key. *)
Let desc (a b : A) : Prop := key b ≤ key a.

Lemma insert_sorted_perm x (l : list A) :
  insert_sorted compareFn x l ≡ₚ x :: l.
Proof.
  induction l as [|y l IH]; simpl; [done|].
  destruct (sortCompare compareFn x y <? 0); [done|].
  rewrite IH. apply Permutation_swap.
Qed.

Lemma sort_from_perm (l acc : list A) :
  fold_left (λ acc x, insert_sorted compareFn x acc) l acc ≡ₚ acc ++ l.
Proof.
  revert acc. induction l as [|x l IH]; intros acc; simpl.
  - by rewrite app_nil_r.
  - rewrite IH, insert_sorted_perm. simpl. apply Permutation_middle.
Qed.

Lemma sort_perm (l : list A) : sort compareFn l ≡ₚ l.
Proof. unfold sort. by rewrite sort_from_perm. Qed.

Lemma insert_sorted_desc x (l : list A) :
  P x → Forall P l →
  StronglySorted desc l → StronglySorted desc (insert_sorted compareFn x l).
Proof using compare_key.
  intros Hx Hl Hs. induction Hs as [|y l Hs IH Hy]; simpl.
  - repeat constructor.
  - apply Forall_cons in Hl as [HPy HPl].
    rewrite compare_key by done.
    destruct (key y - key x <? 0) eqn:Hlt.
    + apply Z.ltb_lt in Hlt. constructor; [by constructor|].
      constructor; [unfold desc; lia|].
      eapply Forall_impl; [exact Hy|]. unfold desc. intros z Hz. lia.
    + apply Z.ltb_ge in Hlt. constructor; [by apply IH|].
      rewrite insert_sorted_perm. constructor; [unfold desc; lia|done].
Qed.

Lemma sort_from_desc (l acc : list A) :
  Forall P l → Forall P acc → StronglySorted desc acc →
  StronglySorted desc
    (fold_left (λ acc x, insert_sorted compareFn x acc) l acc).
Proof using compare_key.
  revert acc. induction l as [|x l IH]; intros acc Hl Hacc Hs; simpl; [done|].
  apply Forall_cons in Hl as [Hx Hl]. apply IH; [done| |].
  - rewrite insert_sorted_perm. by constructor.
  - by apply insert_sorted_desc.
Qed.

Lemma sort_desc (l : list A) :
  Forall P l → StronglySorted desc (sort compareFn l).
Proof using compare_key.
  intros Hl. apply sort_from_desc; [done|constructor|constructor].
Qed.
End SortFacts.


(** ** What a save leaves behind *)

Section FormFacts.
Import JS Fx Validator.
Variable cacheDirectory documentDirectory : jsstring.
Variable toISOString : Z → jsstring.
Implicit Types (st : Form.State) (w : World) (l : list Model.Parcelle).

Lemma valid_no_errors st :
  size (Form.newErrors st) = 0%nat ↔ Form.newErrors st = ∅.
Proof. apply map_size_empty_iff. Qed.

Lemma valid_rules st :
  Form.newErrors st = ∅ ↔
  rule_numeroDeLot (Form.numeroDeLot st) (Form.parcelles st) = ∅
  ∧ rule_etatDeParcelle (Form.etatDeParcelle st) = ∅
  ∧ rule_nombreDeLogement (Form.nombreDeLogement st) = ∅.
Proof.
  rewrite newErrors_rules. split.
  - intros H. assert (H' := H). apply map_positive_l in H' as H12.
    rewrite H12, (left_id_L ∅ (∪)) in H. apply map_positive_l in H12 as H1.
    rewrite H1, (left_id_L ∅ (∪)) in H12. done.
  - intros (-> & -> & ->). by rewrite !(left_id_L ∅ (∪)).
Qed.

Lemma valid_lot_fresh st :
  Form.newErrors st = ∅ →
  trim (Form.numeroDeLot st) ∉ List.map Model.numeroDeLot (Form.parcelles st).
Proof.
  intros [H _]%valid_rules. unfold rule_numeroDeLot in H.
  case_bool_decide; [by apply map_non_empty_singleton in H|].
  case_bool_decide; [by apply map_non_empty_singleton in H|done].
Qed.

Lemma gallery_invalid st env w :
  size (Form.newErrors st) ≠ 0%nat →
  run (GalleryForm.handleSave cacheDirectory toISOString st env) (st, w)
  = (Normal (), (Form.setErrors (Form.newErrors st) st, w)).
Proof.
  intros Hsz. unfold GalleryForm.handleSave, Form.validateForm.
  cbn. by rewrite bool_decide_eq_false_2.
Qed.

Lemma file_invalid st env w :
  size (Form.newErrors st) ≠ 0%nat →
  run (FileForm.handleSave documentDirectory toISOString st env) (st, w)
  = (Normal (), (Form.setErrors (Form.newErrors st) st, w)).
Proof.
  intros Hsz. unfold FileForm.handleSave, Form.validateForm.
  cbn. by rewrite bool_decide_eq_false_2.
Qed.

(** A valid gallery save either stops before the collection is touched or
    appends one record, whose image is none, the picked one, or the one
    [saveImageToMediaLibrary] returned. *)
Lemma gallery_valid st env w :
  size (Form.newErrors st) = 0%nat →
  let st' :=
    (exec (GalleryForm.handleSave cacheDirectory toISOString st env) st w).1 in
  Form.parcelles st' = Form.parcelles st
  ∨ ∃ img,
      Form.parcelles st'
      = Form.parcelles st ++ [GalleryForm.newParcelle toISOString st env img]
      ∧ (img = None ∨ img = Form.image st
         ∨ ∃ n, img = Some (Model.mkImage
                              (from_option Model.uri [] (Form.image st))
                              n None)).
Proof.
  intros Hsz. unfold exec, GalleryForm.handleSave, Form.validateForm.
  cbn. rewrite bool_decide_eq_true_2 by done. cbn.
  destruct env as [g nl nf c s d ni nc so os].
  destruct (Form.image st) as [img|] eqn:Himg; cbn.
  - destruct g as [[]|]; cbn.
    + destruct c; cbn; [|by left].
      destruct s; cbn; [|by left].
      destruct d; cbn; [|by left].
      destruct so, os; cbn; right; eexists; (split; [reflexivity|]); eauto.
    + destruct so, os; cbn; right; eexists; (split; [reflexivity|]); eauto.
    + by left.
  - destruct so, os; cbn; right; eexists; (split; [reflexivity|]); eauto.
Qed.

Lemma file_valid st env w :
  size (Form.newErrors st) = 0%nat →
  let st' :=
    (exec (FileForm.handleSave documentDirectory toISOString st env) st w).1 in
  Form.parcelles st' = Form.parcelles st
  ∨ ∃ path,
      Form.parcelles st'
      = Form.parcelles st
          ++ [FileForm.newParcelle toISOString st env path].
Proof.
  intros Hsz. unfold exec, FileForm.handleSave, Form.validateForm.
  cbn. rewrite bool_decide_eq_true_2 by done. cbn.
  destruct env as [nf c ni nc so os].
  destruct (Form.image st) as [img|] eqn:Himg; cbn.
  - destruct c; cbn; [|by left].
    destruct so, os; cbn; right; eexists; reflexivity.
  - destruct so, os; cbn; right; eexists; reflexivity.
Qed.

Lemma trimmed_trim (s : jsstring) : trimmed (trim s).
Proof. apply trim_idem. Qed.

Lemma trimmed_default (s : jsstring) : trimmed (or_else (trim s) (lit "")).
Proof. rewrite or_else_empty. apply trim_idem. Qed.

Lemma gallery_newParcelle_normalized st env img :
  normalized (GalleryForm.newParcelle toISOString st env img).
Proof.
  repeat split; simpl; first [apply trimmed_default | apply trimmed_trim].
Qed.

Lemma file_newParcelle_normalized st env path :
  normalized (FileForm.newParcelle toISOString st env path).
Proof.
  repeat split; simpl; first [apply trimmed_default | apply trimmed_trim].
Qed.

(** The condition a collection keeps: lot numbers without repetition, and
    trimmed text everywhere. *)
Lemma append_keeps l (p : Model.Parcelle) :
  NoDup (List.map Model.numeroDeLot l) → Forall normalized l →
  Model.numeroDeLot p ∉ List.map Model.numeroDeLot l → normalized p →
  NoDup (List.map Model.numeroDeLot (l ++ [p])) ∧ Forall normalized (l ++ [p]).
Proof.
  intros Hnd Hall Hfresh Hp. split.
  - rewrite List.map_app. apply NoDup_app. split; [done|]. split.
    + intros x Hx [->|[]%elem_of_nil]%elem_of_cons. done.
    + apply NoDup_singleton.
  - apply Forall_app. split; [done|]. by constructor.
Qed.

Lemma gallery_keeps st env w :
  NoDup (List.map Model.numeroDeLot (Form.parcelles st)) →
  Forall normalized (Form.parcelles st) →
  let st' :=
    (exec (GalleryForm.handleSave cacheDirectory toISOString st env) st w).1 in
  NoDup (List.map Model.numeroDeLot (Form.parcelles st'))
  ∧ Forall normalized (Form.parcelles st').
Proof.
  intros Hnd Hall st'. subst st'.
  destruct (decide (size (Form.newErrors st) = 0%nat)) as [Hv|Hv].
  - pose proof (gallery_valid st env w Hv) as H. cbv zeta in H.
    destruct H as [->|(img & -> & _)]; [done|].
    apply append_keeps; [done|done| |apply gallery_newParcelle_normalized].
    by apply valid_lot_fresh, valid_no_errors.
  - unfold exec. by rewrite gallery_invalid.
Qed.

Lemma file_keeps st env w :
  NoDup (List.map Model.numeroDeLot (Form.parcelles st)) →
  Forall normalized (Form.parcelles st) →
  let st' :=
    (exec (FileForm.handleSave documentDirectory toISOString st env) st w).1 in
  NoDup (List.map Model.numeroDeLot (Form.parcelles st'))
  ∧ Forall normalized (Form.parcelles st').
Proof.
  intros Hnd Hall st'. subst st'.
  destruct (decide (size (Form.newErrors st) = 0%nat)) as [Hv|Hv].
  - pose proof (file_valid st env w Hv) as H. cbv zeta in H.
    destruct H as [->|(path & ->)]; [done|].
    apply append_keeps; [done|done| |apply file_newParcelle_normalized].
    by apply valid_lot_fresh, valid_no_errors.
  - unfold exec. by rewrite file_invalid.
Qed.

(** The picked image never carries an asset identifier. *)
Lemma reachable_no_assetId st :
  GalleryForm.reachable cacheDirectory toISOString st →
  ∀ img, Form.image st = Some img → Model.assetId img = None.
Proof.
  induction 1 as [|st w got _ IH|st w key text _ IH|st w env _ IH
                  |st w _ IH|st w env _ IH]; intros img.
  - done.
  - unfold exec, Form.loadParcelles. destruct got; cbn; [|apply IH].
    destruct (storage w); cbn; apply IH.
  - unfold exec, Form.onChangeText.
    repeat (destruct (String.eqb key _); [cbn; apply IH|]). cbn. apply IH.
  - unfold exec, GalleryForm.pickImage. destruct env as [c m cap now].
    destruct c as [[]|]; cbn; try apply IH.
    destruct m as [[]|]; cbn; try apply IH;
      (destruct cap as [[u|]|]; cbn; try apply IH; by intros [= <-]).
  - done.
  - destruct (decide (size (Form.newErrors st) = 0%nat)) as [Hv|Hv].
    + revert Hv. unfold exec, GalleryForm.handleSave, Form.validateForm.
      cbn. intros Hv. rewrite bool_decide_eq_true_2 by done. cbn.
      destruct env as [g nl nf c s d ni nc so os].
      destruct (Form.image st) as [i|] eqn:Himg; cbn.
      * destruct g as [[]|]; cbn; [| |rewrite Himg; apply IH].
        -- destruct c; cbn; [|rewrite Himg; apply IH].
           destruct s; cbn; [|rewrite Himg; apply IH].
           destruct d; cbn; [|rewrite Himg; apply IH].
           destruct so, os; cbn; first [done|rewrite Himg; apply IH].
        -- destruct so, os; cbn; first [done|rewrite Himg; apply IH].
      * destruct so, os; cbn; first [done|rewrite Himg; apply IH].
    + unfold exec. rewrite gallery_invalid by done. cbn. apply IH.
Qed.
End FormFacts.


(** ** The list screen: loading and deleting *)

Section IndexFacts.
Import JS Fx Validator Store.
Variable getTime : jsstring → option Z.
Implicit Types (st : Index.State) (w : World) (l : list Model.Parcelle).

Lemma load_resolved st w l :
  storage w = Some l →
  run (Index.loadParcelles getTime (Resolved ())) (st, w)
  = (Normal (),
     (Index.setIsLoading false
        (Index.setParcelles (sort (Index.compareFn getTime) l)
           (Index.setIsLoading true st)),
      mkWorld (storage w) (trace w ++ [GetItem Model.STORAGE_KEY]))).
Proof. intros Hl. unfold Index.loadParcelles. cbn. by rewrite Hl. Qed.

Lemma load_cases st w got :
  let st' := (exec (Index.loadParcelles getTime got) st w).1 in
  Index.parcelles st' = Index.parcelles st
  ∨ Index.parcelles st' = []
  ∨ ∃ l, storage w = Some l
         ∧ Index.parcelles st' = sort (Index.compareFn getTime) l.
Proof.
  unfold exec, Index.loadParcelles. destruct got; cbn; [|by left].
  destruct (storage w) as [l|]; cbn; [|by right; left].
  right; right. by exists l.
Qed.

Lemma delete_resolved st w env parcelleId image :
  Index.stored env = Resolved () →
  ∃ tr,
    run (Index.deleteParcelle_onPress getTime st env parcelleId image) (st, w)
    = (Normal (),
       (Index.setIsDeleting None
          (Index.setParcelles (kept parcelleId (Index.parcelles st))
             (Index.setIsDeleting (Some parcelleId) st)),
        mkWorld (Some (kept parcelleId (Index.parcelles st))) tr)).
Proof.
  intros Hs. unfold Index.deleteParcelle_onPress. cbn. rewrite Hs. cbn.
  destruct image as [[u n [[|c0 a0]|]]|]; cbn; try by eexists.
  destruct (Index.granted env) as [[]|]; cbn; try by eexists.
  destruct (Index.deleted env); cbn; by eexists.
Qed.

Lemma delete_cases st w env parcelleId image :
  let st' :=
    (exec (Index.deleteParcelle getTime st env parcelleId image) st w).1 in
  Index.parcelles st' = Index.parcelles st
  ∨ Index.parcelles st' = kept parcelleId (Index.parcelles st)
  ∨ Index.parcelles st' = []
  ∨ ∃ l, storage w = Some l
         ∧ Index.parcelles st' = sort (Index.compareFn getTime) l.
Proof.
  unfold exec, Index.deleteParcelle. cbn.
  destruct (Index.confirmed env); cbn; [|by left].
  unfold Index.deleteParcelle_onPress. cbn.
  destruct (Index.stored env); cbn.
  - destruct image as [[u n [[|c0 a0]|]]|]; cbn; try by (right; left).
    destruct (Index.granted env) as [[]|]; cbn; try by (right; left).
    destruct (Index.deleted env); cbn; by (right; left).
  - unfold Index.loadParcelles. cbn.
    destruct (Index.reloaded env); cbn; [|by right; left].
    destruct (storage w) as [l|]; cbn; [|by right; right; left].
    right; right; right. by exists l.
Qed.






Lemma filter_keeps (f : Model.Parcelle → bool) l :
  NoDup (List.map Model.numeroDeLot l) → Forall normalized l →
  NoDup (List.map Model.numeroDeLot (List.filter f l))
  ∧ Forall normalized (List.filter f l).
Proof.
  induction l as [|p l IH]; simpl; [done|].
  intros [Hp Hnd]%NoDup_cons [Hn Hall]%Forall_cons.
  destruct (IH Hnd Hall) as [IH1 IH2].
  destruct (f p); simpl; [|done]. split; [|by constructor].
  apply NoDup_cons. split; [|done]. intros Hin. apply Hp.
  apply list_elem_of_In, in_map_iff in Hin as (q & Hq & Hin).
  apply filter_In in Hin as [Hin _].
  apply list_elem_of_In, in_map_iff. by exists q.
Qed.

Lemma sort_keeps l :
  NoDup (List.map Model.numeroDeLot l) → Forall normalized l →
  NoDup (List.map Model.numeroDeLot (sort (Index.compareFn getTime) l))
  ∧ Forall normalized (sort (Index.compareFn getTime) l).
Proof.
  intros Hnd Hall. pose proof (sort_perm (Index.compareFn getTime) l) as Hp.
  split; [|by rewrite Hp].
  by rewrite (Permutation_map Model.numeroDeLot Hp).
Qed.
End IndexFacts.

(** ** Every collection built through the forms keeps its lot numbers
    apart and its text trimmed *)

Section BuiltFacts.
Import JS Fx Validator.
Variable cacheDirectory documentDirectory : jsstring.
Variable toISOString : Z → jsstring.
Variable getTime : jsstring → option Z.

Lemma built_keeps (l : list Model.Parcelle) :
  App.built cacheDirectory documentDirectory toISOString getTime l →
  NoDup (List.map Model.numeroDeLot l) ∧ Forall normalized l.
Proof.
  induction 1 as [|st env w _ [IH1 IH2]|st env w _ [IH1 IH2]
                  |st got w _ [IH1 IH2] _ IHw
                  |st got w _ [IH1 IH2] _ IHw
                  |st env pid img w _ [IH1 IH2] _ IHw].
  - split; constructor.
  - by apply gallery_keeps.
  - by apply file_keeps.
  - unfold exec, Form.loadParcelles. destruct got; cbn; [|done].
    destruct (storage w) as [l|] eqn:Hl; cbn; [|done]. by apply IHw.
  - pose proof (load_cases getTime st w got) as H. cbv zeta in H.
    destruct H as [->|[->|(l & Hl & ->)]]; [done|split; constructor|].
    destruct (IHw l Hl). by apply sort_keeps.
  - pose proof (delete_cases getTime st w env pid img) as H. cbv zeta in H.
    destruct H as [->|[->|[->|(l & Hl & ->)]]];
      [done|by apply filter_keeps|split; constructor|].
    destruct (IHw l Hl). by apply sort_keeps.
Qed.
End BuiltFacts.


(** * The statements of the specification *)

(** ** Validation *)

Section ValidationClaims.
Import JS Fx Validator.

(** C1. A candidate whose trimmed lot number equals the lot number of a
    record already in the collection is rejected: validation reports a
    lot-number error (the uniqueness one unless the trimmed value is empty),
    returns [false], and [handleSave], in either variant, then leaves the
    collection and the store as they were.  The comparison is between the
    trimmed candidate and the stored string, character by character; over a
    collection of trimmed records it is a comparison of the two trimmed
    strings.  Consequently, in every collection built through the forms the
    lot numbers are pairwise distinct after trimming. *)
Theorem duplicate_lot_rejected
    (cacheDirectory documentDirectory : jsstring)
    (toISOString : Z → jsstring) (getTime : jsstring → option Z)
    (st : Form.State) (p : Model.Parcelle)
    (genv : GalleryForm.Env) (fenv : FileForm.Env) (w : World)
    (l : list Model.Parcelle) :
  let rejected : Prop :=
    (∃ msg, Form.newErrors st !! "numeroDeLot" = Some (Some msg)
            ∧ (trim (Form.numeroDeLot st) ≠ [] →
               msg = lit "Ce numéro de lot existe déjà"))
    ∧ run (Form.validateForm st) (st, w)
      = (Normal false, (Form.setErrors (Form.newErrors st) st, w))
    ∧ run (GalleryForm.handleSave cacheDirectory toISOString st genv) (st, w)
      = (Normal (), (Form.setErrors (Form.newErrors st) st, w))
    ∧ run (FileForm.handleSave documentDirectory toISOString st fenv) (st, w)
      = (Normal (), (Form.setErrors (Form.newErrors st) st, w)) in
  (p ∈ Form.parcelles st →
   Model.numeroDeLot p = trim (Form.numeroDeLot st) → rejected)
  ∧ (Forall normalized (Form.parcelles st) →
     p ∈ Form.parcelles st →
     trim (Model.numeroDeLot p) = trim (Form.numeroDeLot st) → rejected)
  ∧ (App.built cacheDirectory documentDirectory toISOString getTime l →
     NoDup (List.map (λ q, trim (Model.numeroDeLot q)) l)).
Proof.
  intros rejected.
  assert (p ∈ Form.parcelles st →
          Model.numeroDeLot p = trim (Form.numeroDeLot st) → rejected)
    as Hrej.
  { intros Hin Hlot.
    assert (trim (Form.numeroDeLot st)
              ∈ List.map Model.numeroDeLot (Form.parcelles st)) as Hdup.
    { rewrite <- Hlot. apply list_elem_of_In, in_map, list_elem_of_In, Hin. }
    assert (∃ msg, Form.newErrors st !! "numeroDeLot" = Some (Some msg)
                   ∧ (trim (Form.numeroDeLot st) ≠ [] →
                      msg = lit "Ce numéro de lot existe déjà")) as Herr.
    { rewrite newErrors_rules. unfold rule_numeroDeLot.
      case_bool_decide as Hempty.
      - eexists. split; [|by intros []].
        rewrite <- (assoc_L (∪)).
        apply lookup_union_Some_l, lookup_singleton_eq.
      - rewrite bool_decide_eq_true_2 by done. eexists. split; [|reflexivity].
        rewrite <- (assoc_L (∪)).
        apply lookup_union_Some_l, lookup_singleton_eq. }
    assert (size (Form.newErrors st) ≠ 0%nat) as Hsz.
    { destruct Herr as (msg & Hmsg & _).
      eapply map_size_ne_0_lookup_2. by rewrite Hmsg. }
    split; [done|]. split; [|split].
    - unfold Form.validateForm. cbn. by rewrite bool_decide_eq_false_2.
    - by apply gallery_invalid.
    - by apply file_invalid. }
  split; [exact Hrej|]. split.
  - intros Hall Hin Hlot. apply Hrej; [done|].
    rewrite Forall_forall in Hall. destruct (Hall p Hin) as [Hp _].
    by rewrite <- Hp.
  - intros Hb. apply built_keeps in Hb as [Hnd Hall].
    replace (List.map (λ q, trim (Model.numeroDeLot q)) l)
      with (List.map Model.numeroDeLot l); [done|].
    apply map_ext_Forall. eapply Forall_impl; [exact Hall|].
    intros q (Hq & _). symmetry. exact Hq.
Qed.

Lemma duplicate_lot_rejected_witness :
  Example.r1 ∈ Form.parcelles (Example.form " A1 " "Bon" "3" [Example.r1])
  ∧ Model.numeroDeLot Example.r1 = trim (lit " A1 ")
  ∧ Form.parcelles
      (exec (GalleryForm.handleSave Example.cacheDirectory Example.toISOString
               (Example.form " A1 " "Bon" "3" [Example.r1])
               Example.gallery_ok)
         (Example.form " A1 " "Bon" "3" [Example.r1])
         (Example.world [Example.r1])).1
    = [Example.r1]
  ∧ NoDup (List.map (λ q, trim (Model.numeroDeLot q)) []).
Proof.
  assert (Example.r1
            ∈ Form.parcelles (Example.form " A1 " "Bon" "3" [Example.r1]))
    as Hin by (simpl; apply list_elem_of_here).
  assert (Model.numeroDeLot Example.r1 = trim (lit " A1 ")) as Hlot
    by reflexivity.
  destruct (duplicate_lot_rejected Example.cacheDirectory
              Example.documentDirectory Example.toISOString Example.getTime
              (Example.form " A1 " "Bon" "3" [Example.r1]) Example.r1
              Example.gallery_ok Example.file_ok
              (Example.world [Example.r1]) []) as (Hrej & _ & Hbuilt).
  destruct (Hrej Hin Hlot) as (_ & _ & Hsave & _).
  split; [exact Hin|]. split; [exact Hlot|]. split.
  - unfold exec. rewrite Hsave. reflexivity.
  - apply Hbuilt. constructor.
Defined.

(** C2. With the other fields valid and the lot number unique, the unit
    count ["0"], ["-3"] or ["abc"] yields exactly the not-a-positive-number
    error, a count that is empty after trimming yields exactly the
    required-field error, a different message, and ["5"] yields no error.
    In general validation passes exactly when the trimmed count is
    non-empty and [Number] reads it as a number strictly greater than
    zero. *)
Theorem nombreDeLogement_rule (st : Form.State) (w : World) :
  trim (Form.numeroDeLot st) ≠ [] →
  trim (Form.numeroDeLot st)
    ∉ List.map Model.numeroDeLot (Form.parcelles st) →
  trim (Form.etatDeParcelle st) ≠ [] →
  let n := Form.nombreDeLogement st in
  (n ∈ [lit "0"; lit "-3"; lit "abc"] →
   Form.newErrors st
   = {[ "nombreDeLogement" := Some (lit "Doit être un nombre positif") ]})
  ∧ (trim n = [] →
     Form.newErrors st
     = {[ "nombreDeLogement" := Some (lit "Nombre de logements requis") ]})
  ∧ (n = lit "5" → Form.newErrors st = ∅)
  ∧ (Form.newErrors st = ∅
     ↔ trim n ≠ [] ∧ positive (Number (trim n)) = true)
  ∧ (trim n ≠ [] → positive (Number (trim n)) = false →
     Form.newErrors st
     = {[ "nombreDeLogement" := Some (lit "Doit être un nombre positif") ]})
  ∧ lit "Doit être un nombre positif" ≠ lit "Nombre de logements requis"
  ∧ run (Form.validateForm st) (st, w)
    = (Normal (bool_decide (Form.newErrors st = ∅)),
       (Form.setErrors (Form.newErrors st) st, w)).
Proof.
  intros Hlot Hfresh Hetat n.
  assert (Form.newErrors st = rule_nombreDeLogement n) as Hrule.
  { rewrite newErrors_rules. unfold rule_numeroDeLot, rule_etatDeParcelle.
    rewrite !bool_decide_eq_false_2 by done.
    by rewrite !(left_id_L ∅ (∪)). }
  rewrite Hrule. unfold rule_nombreDeLogement.
  split; [|split; [|split; [|split; [|split; [|split]]]]].
  - intros Hn. repeat (apply elem_of_cons in Hn as [->|Hn]);
      [reflexivity..|by apply elem_of_nil in Hn].
  - intros Hn. by rewrite bool_decide_eq_true_2.
  - intros ->. reflexivity.
  - case_bool_decide as Hn.
    + split; [by intros ?%map_non_empty_singleton|by intros []].
    + destruct (positive _).
      * split; [by intros _|by intros _].
      * split; [by intros ?%map_non_empty_singleton|by intros [_ ?]].
  - intros Hn Hpos. by rewrite bool_decide_eq_false_2, Hpos.
  - by vm_compute.
  - fold (rule_nombreDeLogement n). rewrite <- Hrule.
    unfold Form.validateForm. cbn. do 2 f_equal.
    apply bool_decide_ext, map_size_empty_iff.
Qed.

Lemma nombreDeLogement_rule_witness :
  trim (lit "A4") ≠ []
  ∧ (trim (lit "A4") ∉ List.map Model.numeroDeLot [Example.r1])
  ∧ trim (lit "Bon") ≠ []
  ∧ Form.newErrors (Example.form "A4" "Bon" "5" [Example.r1]) = ∅.
Proof.
  assert (trim (lit "A4") ≠ []) as Hlot by (by vm_compute).
  assert (trim (lit "A4") ∉ List.map Model.numeroDeLot [Example.r1]) as Hfresh.
  { intros [Heq|[]%elem_of_nil]%elem_of_cons. by vm_compute in Heq. }
  assert (trim (lit "Bon") ≠ []) as Hetat by (by vm_compute).
  split; [exact Hlot|]. split; [exact Hfresh|]. split; [exact Hetat|].
  destruct (nombreDeLogement_rule (Example.form "A4" "Bon" "5" [Example.r1])
              (Example.world [Example.r1]) Hlot Hfresh Hetat)
    as (_ & _ & Hfive & _).
  apply Hfive. reflexivity.
Defined.

Ltac rule_lookup :=
  repeat case_bool_decide; try destruct (Validator.positive _);
  by rewrite !lookup_union, ?lookup_singleton_eq, ?lookup_empty,
       ?lookup_singleton_ne by done.

(** C3. Validation runs the three field rules on every call and reports
    all their violations together: the errors it sets are the union of the
    rules for [numeroDeLot], [etatDeParcelle] and [nombreDeLogement], each
    read off under its own key, and it answers [true] exactly when the
    three are empty.  Nothing is ever reported for [acheve] or [enCours],
    whose values do not influence the result. *)
Theorem validateForm_reports_all (st : Form.State) (w : World) :
  let lot := rule_numeroDeLot (Form.numeroDeLot st) (Form.parcelles st) in
  let etat := rule_etatDeParcelle (Form.etatDeParcelle st) in
  let nombre := rule_nombreDeLogement (Form.nombreDeLogement st) in
  let errs := Form.errors (exec (Form.validateForm st) st w).1 in
  errs = lot ∪ etat ∪ nombre
  ∧ errs !! "numeroDeLot" = lot !! "numeroDeLot"
  ∧ errs !! "etatDeParcelle" = etat !! "etatDeParcelle"
  ∧ errs !! "nombreDeLogement" = nombre !! "nombreDeLogement"
  ∧ result (Form.validateForm st) st w
    = Normal (bool_decide (lot = ∅ ∧ etat = ∅ ∧ nombre = ∅))
  ∧ errs !! "acheve" = None ∧ errs !! "enCours" = None
  ∧ ∀ a e, Form.newErrors (Form.setAcheve a (Form.setEnCours e st))
           = Form.newErrors st.
Proof.
  intros lot etat nombre errs.
  assert (errs = lot ∪ etat ∪ nombre) as Herrs.
  { subst errs. unfold exec, Form.validateForm. cbn. apply newErrors_rules. }
  split; [exact Herrs|]. rewrite Herrs. clear Herrs errs.
  subst lot etat nombre.
  unfold rule_numeroDeLot, rule_etatDeParcelle, rule_nombreDeLogement.
  repeat split.
  - rule_lookup.
  - rule_lookup.
  - rule_lookup.
  - unfold result, Form.validateForm. cbn. f_equal.
    apply bool_decide_ext. rewrite valid_no_errors. apply valid_rules.
  - rule_lookup.
  - rule_lookup.
Qed.
End ValidationClaims.

(** ** The list screen *)

Section ListClaims.
Import JS Fx Store.

(** C4. When every stored [createdAt] denotes an instant, loading the list
    screen shows the stored records, all of them and no other, in
    descending order of [createdAt]; the stored collection itself is left
    in the order it was written.  Three records stored with instants
    [t1 < t2 < t3] are shown as [t3, t2, t1]. *)
Theorem load_newest_first (getTime : jsstring → option Z)
    (st : Index.State) (w : World) (l : list Model.Parcelle) :
  storage w = Some l →
  Forall (λ p, is_Some (getTime (Model.createdAt p))) l →
  let after := exec (Index.loadParcelles getTime (Resolved ())) st w in
  Index.parcelles after.1 ≡ₚ l
  ∧ StronglySorted
      (λ a b, ∃ ta tb, getTime (Model.createdAt a) = Some ta
                       ∧ getTime (Model.createdAt b) = Some tb ∧ tb ≤ ta)
      (Index.parcelles after.1)
  ∧ storage after.2 = Some l
  ∧ ∀ r1 r2 r3 t1 t2 t3,
      l = [r1; r2; r3] →
      getTime (Model.createdAt r1) = Some t1 →
      getTime (Model.createdAt r2) = Some t2 →
      getTime (Model.createdAt r3) = Some t3 →
      t1 < t2 → t2 < t3 →
      Index.parcelles after.1 = [r3; r2; r1].
Proof.
  intros Hl Hall after. subst after. unfold exec.
  rewrite (load_resolved getTime st w l Hl). cbn.
  split; [apply sort_perm|]. split; [|split; [done|]].
  - set (key := λ p, default 0 (getTime (Model.createdAt p))).
    set (P := λ p, is_Some (getTime (Model.createdAt p))).
    assert (∀ a b, P a → P b →
              sortCompare (Index.compareFn getTime) a b = key b - key a)
      as Hkey.
    { intros a b [ta Ha] [tb Hb]. unfold sortCompare, Index.compareFn, key.
      by rewrite Ha, Hb. }
    pose proof (sort_desc (Index.compareFn getTime) key P Hkey l Hall) as Hs.
    assert (Forall P (sort (Index.compareFn getTime) l)) as HP
      by by rewrite sort_perm.
    revert Hs HP. generalize (sort (Index.compareFn getTime) l).
    intros k Hs. induction Hs as [|a k Hs IH Ha]; [constructor|].
    intros [HPa HPk]%Forall_cons. constructor; [by apply IH|].
    apply Forall_forall. intros b Hb.
    rewrite Forall_forall in Ha, HPk.
    destruct HPa as [ta Hta]. destruct (HPk b Hb) as [tb Htb].
    exists ta, tb. split; [done|]. split; [done|].
    specialize (Ha b Hb). unfold key in Ha. by rewrite Hta, Htb in Ha.
  - intros r1 r2 r3 t1 t2 t3 -> H1 H2 H3 H12 H23.
    assert ((t1 - t2 <? 0) = true) as Hlt1 by (apply Z.ltb_lt; lia).
    assert ((t2 - t3 <? 0) = true) as Hlt2 by (apply Z.ltb_lt; lia).
    assert (∀ a b ta tb,
              getTime (Model.createdAt a) = Some ta →
              getTime (Model.createdAt b) = Some tb →
              sortCompare (Index.compareFn getTime) a b = tb - ta) as Hcmp.
    { intros a b ta tb Ha Hb. unfold sortCompare, Index.compareFn.
      by rewrite Ha, Hb. }
    unfold sort. cbn [fold_left insert_sorted].
    rewrite (Hcmp r2 r1 t2 t1 H2 H1), Hlt1. cbn [insert_sorted].
    by rewrite (Hcmp r3 r2 t3 t2 H3 H2), Hlt2.
Qed.

Lemma load_newest_first_witness :
  storage (Example.world [Example.r1; Example.r2; Example.r3])
  = Some [Example.r1; Example.r2; Example.r3]
  ∧ Forall (λ p, is_Some (Example.getTime (Model.createdAt p)))
      [Example.r1; Example.r2; Example.r3]
  ∧ Index.parcelles
      (exec (Index.loadParcelles Example.getTime (Resolved ()))
         Index.initial
         (Example.world [Example.r1; Example.r2; Example.r3])).1
    = [Example.r3; Example.r2; Example.r1].
Proof.
  assert (Forall (λ p, is_Some (Example.getTime (Model.createdAt p)))
            [Example.r1; Example.r2; Example.r3]) as Hall.
  { repeat constructor; by eexists. }
  split; [reflexivity|]. split; [exact Hall|].
  destruct (load_newest_first Example.getTime Index.initial
              (Example.world [Example.r1; Example.r2; Example.r3])
              [Example.r1; Example.r2; Example.r3] eq_refl Hall)
    as (_ & _ & _ & Hthree).
  apply (Hthree Example.r1 Example.r2 Example.r3
           Example.t1 Example.t2 Example.t3);
    [reflexivity|reflexivity|reflexivity|reflexivity| |]; by vm_compute.
Defined.




(** C9. Deleting the gallery asset is best effort.  Whatever the gallery
    answers, [deleteImageFromMediaLibrary] completes normally; and once the
    write of the collection has succeeded, the deletion of the record
    completes normally too, with the record removed in memory and in the
    store, whether or not the asset could be deleted. *)
Theorem asset_deletion_best_effort (getTime : jsstring → option Z)
    (st : Index.State) (w : World) (env : Index.DeleteEnv)
    (parcelleId : jsstring) (image : option Model.Image)
    (assetId : option jsstring) :
  (∃ tr, run (Index.deleteImageFromMediaLibrary env assetId) (st, w)
         = (Normal (), (st, mkWorld (storage w) tr)))
  ∧ (Index.stored env = Resolved () →
     let after :=
       run (Index.deleteParcelle_onPress getTime st env parcelleId image)
         (st, w) in
     after.1 = Normal ()
     ∧ Index.parcelles after.2.1 = kept parcelleId (Index.parcelles st)
     ∧ storage after.2.2 = Some (kept parcelleId (Index.parcelles st))
     ∧ last (trace after.2.2)
       = Some (Alert (lit "Succès") (lit "Parcelle supprimée avec succès"))).
Proof.
  split.
  - unfold Index.deleteImageFromMediaLibrary. destruct w as [stored tr0].
    destruct assetId as [[|c a]|]; cbn; try by eexists.
    destruct (Index.granted env) as [[]|]; cbn; try by eexists.
    destruct (Index.deleted env); cbn; by eexists.
  - intros Hs. unfold Index.deleteParcelle_onPress. cbn. rewrite Hs. cbn.
    destruct image as [[u n [[|c0 a0]|]]|]; cbn;
      try (by rewrite last_snoc).
    destruct (Index.granted env) as [[]|]; cbn; try (by rewrite last_snoc).
    destruct (Index.deleted env); cbn; by rewrite last_snoc.
Qed.

Lemma asset_deletion_best_effort_witness :
  Index.stored Example.delete_asset_fails = Resolved ()
  ∧ Index.deleted Example.delete_asset_fails = Rejected
  ∧ storage
      (run (Index.deleteParcelle_onPress Example.getTime
              (Example.list_screen [Example.r2; Example.r1])
              Example.delete_asset_fails (Model.id Example.r2)
              (Some (Model.mkImage (lit "file:///camera/1.jpg")
                       (lit "Parcelle_A2_1.jpg") (Some (lit "asset-1")))))
         (Example.list_screen [Example.r2; Example.r1],
          Example.world [Example.r1; Example.r2])).2.2
    = Some [Example.r1].
Proof.
  split; [reflexivity|]. split; [reflexivity|].
  destruct (asset_deletion_best_effort Example.getTime
              (Example.list_screen [Example.r2; Example.r1])
              (Example.world [Example.r1; Example.r2])
              Example.delete_asset_fails (Model.id Example.r2)
              (Some (Model.mkImage (lit "file:///camera/1.jpg")
                       (lit "Parcelle_A2_1.jpg") (Some (lit "asset-1"))))
              None) as [_ Hdel].
  destruct (Hdel eq_refl) as (_ & _ & Hstore & _).
  rewrite Hstore. reflexivity.
Defined.
End ListClaims.

(** ** The exporter *)

Section ExportFacts.
Import JS Fx.
Variable getTime : jsstring → option Z.
Variable toLocaleDateString : option Z → jsstring.

Lemma add_keys_first index p :
  XLSX.add_keys [] (Index.excelRow getTime toLocaleDateString index p)
  = Exporter.columns.
Proof. by vm_compute. Qed.

Lemma add_keys_next index p :
  XLSX.add_keys Exporter.columns
    (Index.excelRow getTime toLocaleDateString index p)
  = Exporter.columns.
Proof. by vm_compute. Qed.

Lemma keys_next (f : nat → nat) (l : list Model.Parcelle) :
  fold_left XLSX.add_keys
    (imap (λ i, Index.excelRow getTime toLocaleDateString (f i)) l)
    Exporter.columns
  = Exporter.columns.
Proof.
  revert f. induction l as [|p l IH]; intros f; [done|].
  cbn [imap fold_left]. rewrite add_keys_next. apply (IH (f ∘ S)).
Qed.

Lemma keys_columns (l : list Model.Parcelle) :
  l ≠ [] →
  XLSX.keys (imap (Index.excelRow getTime toLocaleDateString) l)
  = Exporter.columns.
Proof.
  destruct l as [|p l]; [done|]. intros _. unfold XLSX.keys.
  cbn [imap fold_left]. rewrite add_keys_first. apply (keys_next S).
Qed.

Lemma values_row index p :
  List.map (XLSX.value (Index.excelRow getTime toLocaleDateString index p))
    Exporter.columns
  = Exporter.row (Index.formatDate getTime toLocaleDateString
                    (Model.createdAt p)) index p.
Proof.
  destruct p as [i lot etat nombre ach enc img created].
  destruct img as [[u n [[|c a]|]]|], ach, enc; try destruct n; reflexivity.
Qed.
End ExportFacts.

Section ExportClaims.
Import JS Fx.
#[local] Arguments Index.excelWorkbook : simpl never.
#[local] Arguments Index.before : simpl never.

(** C6. Exporting an empty collection stops at the first statement: the
    only thing that happens is the notice; the component state is not
    touched, no file is written, nothing is shared, nothing is stored. *)
Theorem export_empty_rejected
    (getTime : jsstring → option Z) (toLocaleDateString : option Z → jsstring)
    (toISOString : Z → jsstring) (documentDirectory : jsstring)
    (st : Index.State) (env : Index.ExportEnv) (w : World) :
  Index.parcelles st = [] →
  run (Index.exportToExcel getTime toLocaleDateString toISOString
         documentDirectory st env) (st, w)
  = (Normal (),
     (st, mkWorld (storage w)
            (trace w ++ [Alert (lit "Attention")
                           (lit "Aucune donnée à exporter")]))).
Proof. intros Hl. unfold Index.exportToExcel. by rewrite Hl. Qed.

Lemma export_empty_rejected_witness :
  Index.parcelles (Example.list_screen []) = []
  ∧ trace
      (exec (Index.exportToExcel Example.getTime Example.toLocaleDateString
               Example.toISOString Example.documentDirectory
               (Example.list_screen []) Example.export_ok)
         (Example.list_screen []) (mkWorld None [])).2
    = [Alert (lit "Attention") (lit "Aucune donnée à exporter")].
Proof.
  split; [reflexivity|]. unfold exec.
  rewrite (export_empty_rejected Example.getTime Example.toLocaleDateString
             Example.toISOString Example.documentDirectory
             (Example.list_screen []) Example.export_ok (mkWorld None [])
             eq_refl).
  reflexivity.
Defined.

(** C7. For a collection of [N > 0] records the exporter builds a workbook
    of one sheet with [N + 1] rows of eleven cells: the header, which is
    the eleven column labels in their fixed order, then one row per record
    in the order of the displayed collection, the row at position [i]
    carrying the sequential index [i + 1] and the record's values.  This
    workbook is what the export writes to the file. *)
Theorem export_rows
    (getTime : jsstring → option Z) (toLocaleDateString : option Z → jsstring)
    (toISOString : Z → jsstring) (documentDirectory : jsstring)
    (st : Index.State) (env : Index.ExportEnv) (w : World) :
  Index.parcelles st ≠ [] →
  let l := Index.parcelles st in
  let wb := Index.excelWorkbook getTime toLocaleDateString l in
  (∃ ws,
     wb = [(lit "Liste des Parcelles", ws)]
     ∧ length (Model.cells ws) = S (length l)
     ∧ Model.cells ws !! 0%nat = Some (List.map Model.CStr Exporter.columns)
     ∧ length Exporter.columns = 11%nat
     ∧ Forall (λ r, length r = 11%nat) (Model.cells ws)
     ∧ ∀ i p,
         l !! i = Some p →
         Model.cells ws !! S i
         = Some (Exporter.row
                   (Index.formatDate getTime toLocaleDateString
                      (Model.createdAt p)) i p)
           ∧ Exporter.row
               (Index.formatDate getTime toLocaleDateString
                  (Model.createdAt p)) i p !! 0%nat
             = Some (Model.CNum (Z.of_nat i + 1)))
  ∧ ∃ fileUri rest,
      trace (exec (Index.exportToExcel getTime toLocaleDateString toISOString
                     documentDirectory st env) st w).2
      = trace w ++ WriteAsStringAsync fileUri wb :: rest.
Proof.
  intros Hne l wb. split.
  - subst wb. unfold Index.excelWorkbook, XLSX.book_append_sheet,
      XLSX.book_new, XLSX.json_to_sheet.
    rewrite (keys_columns getTime toLocaleDateString l Hne). cbn [app].
    eexists. split; [reflexivity|]. cbn [Model.cells].
    assert (∀ i p, l !! i = Some p →
              List.map
                (λ row, List.map (XLSX.value row) Exporter.columns)
                (imap (Index.excelRow getTime toLocaleDateString) l) !! i
              = Some (Exporter.row
                        (Index.formatDate getTime toLocaleDateString
                           (Model.createdAt p)) i p)) as Hrow.
    { intros i p Hi.
      change (List.map ?f ?k) with (f <$> k) at 1.
      rewrite list_lookup_fmap, list_lookup_imap, Hi.
      change (Some (List.map
                      (XLSX.value
                         (Index.excelRow getTime toLocaleDateString i p))
                      Exporter.columns) = Some (Exporter.row
                        (Index.formatDate getTime toLocaleDateString
                           (Model.createdAt p)) i p)).
      by rewrite values_row. }
    split; [by rewrite length_cons, length_map, length_imap|].
    split; [done|]. split; [done|]. split.
    + constructor; [done|]. apply Forall_forall. intros r Hr.
      apply list_elem_of_In, in_map_iff in Hr as (row & <- & Hin).
      by rewrite length_map.
    + intros i p Hi. split; [|done]. by apply Hrow.
  - subst wb l. unfold exec, Index.exportToExcel.
    destruct (Index.parcelles st) as [|p0 l0] eqn:Hl; [done|]. cbn.
    destruct (Index.written env); cbn.
    + destruct (Index.available env) as [[]|]; cbn.
      * destruct (Index.shared env); cbn;
          rewrite <- ?(assoc_L (++)); by do 2 eexists.
      * rewrite <- ?(assoc_L (++)); by do 2 eexists.
      * rewrite <- ?(assoc_L (++)); by do 2 eexists.
    + rewrite <- ?(assoc_L (++)); by do 2 eexists.
Qed.

Lemma export_rows_witness :
  Index.parcelles (Example.list_screen [Example.r3; Example.r2]) ≠ []
  ∧ ∃ ws,
      Index.excelWorkbook Example.getTime Example.toLocaleDateString
        [Example.r3; Example.r2]
      = [(lit "Liste des Parcelles", ws)]
      ∧ length (Model.cells ws) = 3%nat.
Proof.
  assert (Index.parcelles (Example.list_screen [Example.r3; Example.r2]) ≠ [])
    as Hne by done.
  split; [exact Hne|].
  destruct (export_rows Example.getTime Example.toLocaleDateString
              Example.toISOString Example.documentDirectory
              (Example.list_screen [Example.r3; Example.r2])
              Example.export_ok (mkWorld None []) Hne)
    as [(ws & Hwb & Hlen & _) _].
  exists ws. split; [exact Hwb|exact Hlen].
Defined.
End ExportClaims.

(** ** The records a form creates *)

Section FormClaims.
Import JS Fx Validator.

(** C8. In the gallery variant, whenever [saveImageToMediaLibrary] returns
    an image reference, its [assetId] is [undefined] and its [uri] is the
    capture URI it was given; it does return one when the permission is
    granted and the copy, the registration and the removal of the temporary
    copy succeed.  The record [handleSave] appends, from any state the
    screen can reach, never has an image with an [assetId]. *)
Theorem gallery_save_no_assetId
    (cacheDirectory : jsstring) (toISOString : Z → jsstring)
    (st : Form.State) (env : GalleryForm.Env) (w : World)
    (imageUri imageName : jsstring) :
  (∀ img,
     result (GalleryForm.saveImageToMediaLibrary cacheDirectory st env
               imageUri imageName) st w = Normal (Some img) →
     Model.assetId img = None ∧ Model.uri img = imageUri)
  ∧ (GalleryForm.granted env = Resolved true →
     GalleryForm.copied env = Resolved () →
     GalleryForm.saved env = Resolved () →
     GalleryForm.deleted env = Resolved () →
     ∃ fileName,
       result (GalleryForm.saveImageToMediaLibrary cacheDirectory st env
                 imageUri imageName) st w
       = Normal (Some (Model.mkImage imageUri fileName None)))
  ∧ (GalleryForm.reachable cacheDirectory toISOString st →
     let st' :=
       (exec (GalleryForm.handleSave cacheDirectory toISOString st env)
          st w).1 in
     Form.parcelles st' = Form.parcelles st
     ∨ ∃ p, Form.parcelles st' = Form.parcelles st ++ [p]
            ∧ ∀ img, Model.image p = Some img → Model.assetId img = None).
Proof.
  split; [|split].
  - intros img. unfold result, GalleryForm.saveImageToMediaLibrary. cbn.
    destruct (GalleryForm.granted env) as [[]|]; cbn; try done.
    destruct (GalleryForm.copied env); cbn; try done.
    destruct (GalleryForm.saved env); cbn; try done.
    destruct (GalleryForm.deleted env); cbn; try done.
    by intros [= <-].
  - intros Hg Hc Hs Hd.
    unfold result, GalleryForm.saveImageToMediaLibrary. cbn.
    rewrite Hg. cbn. rewrite Hc. cbn. rewrite Hs. cbn. rewrite Hd. cbn.
    by eexists.
  - intros Hreach st'. subst st'.
    pose proof (reachable_no_assetId cacheDirectory toISOString st Hreach)
      as Himg.
    destruct (decide (size (Form.newErrors st) = 0%nat)) as [Hv|Hv].
    + pose proof (gallery_valid cacheDirectory toISOString st env w Hv) as H.
      cbv zeta in H. destruct H as [->|(i & -> & Hi)]; [by left|].
      right. eexists. split; [reflexivity|]. simpl.
      destruct Hi as [->|[->|(n & ->)]]; [done|exact Himg|].
      by intros img [= <-].
    + left. unfold exec. by rewrite gallery_invalid.
Qed.

Lemma gallery_save_no_assetId_witness :
  GalleryForm.reachable Example.cacheDirectory Example.toISOString
    Form.initial
  ∧ result (GalleryForm.saveImageToMediaLibrary Example.cacheDirectory
              Form.initial Example.gallery_ok
              (Model.uri Example.photo) (Model.name Example.photo))
      Form.initial (mkWorld None [])
    = Normal (Some (Model.mkImage (Model.uri Example.photo)
                      (lit "Parcelle_1704067200000_1704067200000.jpg")
                      None))
  ∧ ∀ img,
      result (GalleryForm.saveImageToMediaLibrary Example.cacheDirectory
                Form.initial Example.gallery_ok
                (Model.uri Example.photo) (Model.name Example.photo))
        Form.initial (mkWorld None [])
      = Normal (Some img) →
      Model.assetId img = None ∧ Model.uri img = Model.uri Example.photo.
Proof.
  split; [constructor|]. split; [reflexivity|].
  apply (gallery_save_no_assetId Example.cacheDirectory Example.toISOString
           Form.initial Example.gallery_ok (mkWorld None [])
           (Model.uri Example.photo) (Model.name Example.photo)).
Defined.

(** C10. The record a form appends holds trimmed text: its lot number,
    state and unit count are the trimmed inputs, and its [acheve] and
    [enCours] are the trimmed inputs too, the empty string when nothing
    was typed; each equals its own trimmed form.  Hence every collection
    built through the forms holds only records with trimmed text. *)
Theorem form_records_trimmed
    (cacheDirectory documentDirectory : jsstring)
    (toISOString : Z → jsstring) (getTime : jsstring → option Z)
    (st : Form.State) (genv : GalleryForm.Env) (fenv : FileForm.Env)
    (w : World) (l : list Model.Parcelle) :
  let created (st' : Form.State) : Prop :=
    Form.parcelles st' = Form.parcelles st
    ∨ ∃ p, Form.parcelles st' = Form.parcelles st ++ [p]
           ∧ Model.numeroDeLot p = trim (Form.numeroDeLot st)
           ∧ Model.etatDeParcelle p = trim (Form.etatDeParcelle st)
           ∧ Model.nombreDeLogement p = trim (Form.nombreDeLogement st)
           ∧ Model.acheve p = trim (Form.acheve st)
           ∧ Model.enCours p = trim (Form.enCours st)
           ∧ normalized p in
  created (exec (GalleryForm.handleSave cacheDirectory toISOString st genv)
             st w).1
  ∧ created (exec (FileForm.handleSave documentDirectory toISOString st fenv)
               st w).1
  ∧ (Form.acheve st = lit "" → Form.enCours st = lit "" →
     trim (Form.acheve st) = lit "" ∧ trim (Form.enCours st) = lit "")
  ∧ (App.built cacheDirectory documentDirectory toISOString getTime l →
     Forall normalized l).
Proof.
  intros created. subst created. cbv beta.
  split; [|split; [|split]].
  - destruct (decide (size (Form.newErrors st) = 0%nat)) as [Hv|Hv].
    + pose proof (gallery_valid cacheDirectory toISOString st genv w Hv) as H.
      cbv zeta in H. destruct H as [->|(i & -> & _)]; [by left|].
      right. eexists. split; [reflexivity|]. simpl.
      rewrite !or_else_empty. repeat (split; [reflexivity|]).
      apply gallery_newParcelle_normalized.
    + left. unfold exec. by rewrite gallery_invalid.
  - destruct (decide (size (Form.newErrors st) = 0%nat)) as [Hv|Hv].
    + pose proof (file_valid documentDirectory toISOString st fenv w Hv) as H.
      cbv zeta in H. destruct H as [->|(path & ->)]; [by left|].
      right. eexists. split; [reflexivity|]. simpl.
      rewrite !or_else_empty. repeat (split; [reflexivity|]).
      apply file_newParcelle_normalized.
    + left. unfold exec. by rewrite file_invalid.
  - by intros -> ->.
  - by intros [_ Hall]%built_keeps.
Qed.

Lemma form_records_trimmed_witness :
  App.built Example.cacheDirectory Example.documentDirectory
    Example.toISOString Example.getTime []
  ∧ Forall normalized []
  ∧ List.map Model.numeroDeLot
      (Form.parcelles
         (exec (GalleryForm.handleSave Example.cacheDirectory
                  Example.toISOString
                  (Example.form " A4 " " Bon " " 5 " [Example.r1])
                  Example.gallery_ok)
            (Example.form " A4 " " Bon " " 5 " [Example.r1])
            (Example.world [Example.r1])).1)
    = [lit "A1"; lit "A4"].
Proof.
  assert (App.built Example.cacheDirectory Example.documentDirectory
            Example.toISOString Example.getTime []) as Hb by constructor.
  destruct (form_records_trimmed Example.cacheDirectory
              Example.documentDirectory Example.toISOString Example.getTime
              (Example.form " A4 " " Bon " " 5 " [Example.r1])
              Example.gallery_ok Example.file_ok
              (Example.world [Example.r1]) []) as (_ & _ & _ & Hall).
  split; [exact Hb|]. split; [exact (Hall Hb)|]. by vm_compute.
Defined.
End FormClaims.

(** * More about the handlers *)

(** ** The form screen *)

Section FormRuns.
Import JS Fx Validator.
Implicit Types (st : Form.State) (w : World).

Lemma valid_lot_truthy st :
  Form.newErrors st = ∅ → truthy (trim (Form.numeroDeLot st)) = true.
Proof.
  intros [H _]%valid_rules. unfold rule_numeroDeLot in H.
  case_bool_decide as He; [by apply map_non_empty_singleton in H|].
  by destruct (trim (Form.numeroDeLot st)).
Qed.

Lemma valid_decide st :
  Form.newErrors st = ∅ →
  bool_decide (size (Form.newErrors st) = 0%nat) = true.
Proof. intros H. apply bool_decide_eq_true_2. by apply valid_no_errors. Qed.

(** X1. The form's load never fails.  When the read resolves and a
    collection is stored, the form holds that collection in the stored
    order; when nothing is stored or the read is rejected it keeps the
    collection it had.  Nothing else of the form changes and the store is
    not written. *)
Theorem form_load_reads_store st w (got : outcome ()) :
  let after := run (Form.loadParcelles got) (st, w) in
  after.1 = Normal ()
  ∧ after.2.1
    = Form.setParcelles
        (match got, storage w with
         | Resolved _, Some l => l
         | _, _ => Form.parcelles st
         end) st
  ∧ storage after.2.2 = storage w
  ∧ trace after.2.2
    = trace w ++ GetItem Model.STORAGE_KEY
        :: match got with
           | Resolved _ => []
           | Rejected =>
               [ConsoleError (lit "Erreur lors du chargement des parcelles:")]
           end.
Proof.
  unfold Form.loadParcelles. destruct st, got as [[]|]; cbn.
  - destruct (storage w); cbn; done.
  - by rewrite <- (assoc_L (++)).
Qed.

(** What a gallery save that meets no failure does. *)
Lemma gallery_run_success (cacheDirectory : jsstring)
    (toISOString : Z → jsstring) st (env : GalleryForm.Env) w :
  Form.newErrors st = ∅ →
  (is_Some (Form.image st) →
   GalleryForm.granted env = Resolved true
   ∧ GalleryForm.copied env = Resolved ()
   ∧ GalleryForm.saved env = Resolved ()
   ∧ GalleryForm.deleted env = Resolved ()) →
  GalleryForm.stored env = Resolved () →
  let fileName :=
    lit "Parcelle_" ++ trim (Form.numeroDeLot st) ++ lit "_"
      ++ toString (GalleryForm.now_file env) ++ lit ".jpg" in
  let savedImage :=
    match Form.image st with
    | Some img => Some (Model.mkImage (Model.uri img) fileName None)
    | None => None
    end in
  let p := GalleryForm.newParcelle toISOString st env savedImage in
  run (GalleryForm.handleSave cacheDirectory toISOString st env) (st, w)
  = (Normal (),
     (Form.mkState (lit "") (lit "") (lit "") None (Form.isLoading st) false
        (Form.parcelles st ++ [p]) (lit "") (lit "") ∅,
      mkWorld (Some (Form.parcelles st ++ [p]))
        (trace w
         ++ match Form.image st with
            | Some img =>
                [ RequestPermissionsAsync;
                  CopyAsync (Model.uri img) (cacheDirectory ++ fileName);
                  SaveToLibraryAsync (cacheDirectory ++ fileName);
                  DeleteAsync (cacheDirectory ++ fileName) ]
            | None => []
            end
         ++ [SetItem Model.STORAGE_KEY (Form.parcelles st ++ [p])]
         ++ (if GalleryForm.onSave env then [OnSave p] else [])
         ++ [ Alert (lit "Succès")
                (match Form.image st with
                 | Some _ => lit "Parcelle sauvegardée avec succès! La photo est maintenant disponible dans votre galerie."
                 | None => lit "Parcelle sauvegardée avec succès!"
                 end);
              RouterBack ]))).
Proof.
  intros Hv Himg Hs fileName savedImage p. subst p savedImage fileName.
  unfold GalleryForm.handleSave, Form.validateForm. cbn.
  rewrite (valid_decide st Hv). cbn.
  destruct (Form.image st) as [img|] eqn:Hi; cbn.
  - destruct Himg as (Hg & Hc & Hsv & Hd); [by eexists|].
    rewrite Hg. cbn. rewrite (valid_lot_truthy st Hv).
    rewrite Hc. cbn. rewrite Hsv. cbn. rewrite Hd. cbn. rewrite Hs. cbn.
    destruct (GalleryForm.onSave env); cbn;
      repeat rewrite <- (assoc_L (++)); reflexivity.
  - rewrite Hs. cbn.
    destruct (GalleryForm.onSave env); cbn;
      repeat rewrite <- (assoc_L (++)); reflexivity.
Qed.

(** X2. A gallery save that passes validation and meets no failure writes
    the collection it held with the new record appended at the end, resets
    the five inputs, the image and the errors, and navigates back.  The
    gallery copy is named after the trimmed lot number, never after the
    clock; the temporary copy is made, registered and removed, in that
    order, before the store is written. *)
Theorem gallery_save_succeeds (cacheDirectory : jsstring)
    (toISOString : Z → jsstring) st (env : GalleryForm.Env) w :
  Form.newErrors st = ∅ →
  (is_Some (Form.image st) →
   GalleryForm.granted env = Resolved true
   ∧ GalleryForm.copied env = Resolved ()
   ∧ GalleryForm.saved env = Resolved ()
   ∧ GalleryForm.deleted env = Resolved ()) →
  GalleryForm.stored env = Resolved () →
  let fileName :=
    lit "Parcelle_" ++ trim (Form.numeroDeLot st) ++ lit "_"
      ++ toString (GalleryForm.now_file env) ++ lit ".jpg" in
  let p :=
    GalleryForm.newParcelle toISOString st env
      (match Form.image st with
       | Some img => Some (Model.mkImage (Model.uri img) fileName None)
       | None => None
       end) in
  let after :=
    run (GalleryForm.handleSave cacheDirectory toISOString st env) (st, w) in
  after.1 = Normal ()
  ∧ after.2.1
    = Form.mkState (lit "") (lit "") (lit "") None (Form.isLoading st) false
        (Form.parcelles st ++ [p]) (lit "") (lit "") ∅
  ∧ storage after.2.2 = Some (Form.parcelles st ++ [p])
  ∧ trace after.2.2
    = trace w
      ++ match Form.image st with
         | Some img =>
             [ RequestPermissionsAsync;
               CopyAsync (Model.uri img) (cacheDirectory ++ fileName);
               SaveToLibraryAsync (cacheDirectory ++ fileName);
               DeleteAsync (cacheDirectory ++ fileName) ]
         | None => []
         end
      ++ [SetItem Model.STORAGE_KEY (Form.parcelles st ++ [p])]
      ++ (if GalleryForm.onSave env then [OnSave p] else [])
      ++ [ Alert (lit "Succès")
             (match Form.image st with
              | Some _ => lit "Parcelle sauvegardée avec succès! La photo est maintenant disponible dans votre galerie."
              | None => lit "Parcelle sauvegardée avec succès!"
              end);
           RouterBack ].
Proof.
  intros Hv Himg Hs fileName p after. subst after p fileName.
  by rewrite (gallery_run_success cacheDirectory toISOString st env w
                Hv Himg Hs).
Qed.

Lemma gallery_save_succeeds_witness :
  Form.newErrors
    (Form.setImage (Some Example.photo)
       (Example.form " A4 " "Bon" "5" [Example.r1])) = ∅
  ∧ storage
      (run (GalleryForm.handleSave Example.cacheDirectory Example.toISOString
              (Form.setImage (Some Example.photo)
                 (Example.form " A4 " "Bon" "5" [Example.r1]))
              Example.gallery_ok)
         (Form.setImage (Some Example.photo)
            (Example.form " A4 " "Bon" "5" [Example.r1]),
          Example.world [Example.r1])).2.2
    = Some [Example.r1;
            Model.mkParcelle (lit "1704153600000") (lit "A4") (lit "Bon")
              (lit "5") (lit "") (lit "")
              (Some (Model.mkImage (lit "file:///camera/1.jpg")
                       (lit "Parcelle_A4_1704067200000.jpg") None))
              (lit "2024-01-02T00:00:00.000Z")].
Proof.
  assert (Form.newErrors
            (Form.setImage (Some Example.photo)
               (Example.form " A4 " "Bon" "5" [Example.r1])) = ∅) as Hv
    by reflexivity.
  split; [exact Hv|].
  destruct (gallery_save_succeeds Example.cacheDirectory Example.toISOString
              (Form.setImage (Some Example.photo)
                 (Example.form " A4 " "Bon" "5" [Example.r1]))
              Example.gallery_ok (Example.world [Example.r1]) Hv
              (λ _, conj eq_refl (conj eq_refl (conj eq_refl eq_refl)))
              eq_refl) as (_ & _ & Hstore & _).
  rewrite Hstore. reflexivity.
Defined.

(** X3. When the gallery permission is refused the record is saved all
    the same, with the picked image as it was captured: nothing is copied
    or registered, the store receives the collection with the new record,
    and the form still announces that the photo is in the gallery. *)
Theorem gallery_permission_refused (cacheDirectory : jsstring)
    (toISOString : Z → jsstring) st (env : GalleryForm.Env) w
    (img : Model.Image) :
  Form.newErrors st = ∅ →
  Form.image st = Some img →
  GalleryForm.granted env = Resolved false →
  GalleryForm.stored env = Resolved () →
  let p := GalleryForm.newParcelle toISOString st env (Some img) in
  let after :=
    run (GalleryForm.handleSave cacheDirectory toISOString st env) (st, w) in
  after.1 = Normal ()
  ∧ Form.parcelles after.2.1 = Form.parcelles st ++ [p]
  ∧ storage after.2.2 = Some (Form.parcelles st ++ [p])
  ∧ trace after.2.2
    = trace w
      ++ [ RequestPermissionsAsync;
           Alert (lit "Permission requise")
             (lit "L'autorisation d'accès à la galerie est requise pour sauvegarder les photos.");
           SetItem Model.STORAGE_KEY (Form.parcelles st ++ [p]) ]
      ++ (if GalleryForm.onSave env then [OnSave p] else [])
      ++ [ Alert (lit "Succès")
             (lit "Parcelle sauvegardée avec succès! La photo est maintenant disponible dans votre galerie.");
           RouterBack ].
Proof.
  intros Hv Hi Hg Hs p after. subst after p.
  unfold GalleryForm.handleSave, Form.validateForm. cbn.
  rewrite (valid_decide st Hv). cbn. rewrite Hi. cbn. rewrite Hg. cbn.
  rewrite Hs. cbn.
  destruct (GalleryForm.onSave env); cbn;
    repeat rewrite <- (assoc_L (++)); done.
Qed.

Lemma gallery_permission_refused_witness :
  Form.newErrors
    (Form.setImage (Some Example.photo)
       (Example.form "A4" "Bon" "5" [Example.r1])) = ∅
  ∧ List.map Model.image
      (Form.parcelles
         (run (GalleryForm.handleSave Example.cacheDirectory
                 Example.toISOString
                 (Form.setImage (Some Example.photo)
                    (Example.form "A4" "Bon" "5" [Example.r1]))
                 (GalleryForm.mkEnv (Resolved false) 0 0 Rejected Rejected
                    Rejected Example.t2 Example.t2 (Resolved ()) false))
            (Form.setImage (Some Example.photo)
               (Example.form "A4" "Bon" "5" [Example.r1]),
             Example.world [Example.r1])).2.1)
    = [None; Some Example.photo].
Proof.
  assert (Form.newErrors
            (Form.setImage (Some Example.photo)
               (Example.form "A4" "Bon" "5" [Example.r1])) = ∅) as Hv
    by reflexivity.
  split; [exact Hv|].
  destruct (gallery_permission_refused Example.cacheDirectory
              Example.toISOString
              (Form.setImage (Some Example.photo)
                 (Example.form "A4" "Bon" "5" [Example.r1]))
              (GalleryForm.mkEnv (Resolved false) 0 0 Rejected Rejected
                 Rejected Example.t2 Example.t2 (Resolved ()) false)
              (Example.world [Example.r1]) Example.photo Hv eq_refl eq_refl
              eq_refl) as (_ & Hp & _).
  rewrite Hp. reflexivity.
Defined.

(** X4. When the gallery save itself fails (the permission request, the
    copy, the registration or the removal of the temporary copy is
    rejected) the save is abandoned: no record is appended, the store is
    not written, the inputs and the picked image stay as typed, the busy
    flag is lowered and a single error notice is shown. *)
Theorem gallery_image_failure_aborts (cacheDirectory : jsstring)
    (toISOString : Z → jsstring) st (env : GalleryForm.Env) w
    (img : Model.Image) :
  Form.newErrors st = ∅ →
  Form.image st = Some img →
  GalleryForm.granted env = Rejected
  ∨ GalleryForm.granted env = Resolved true
    ∧ (GalleryForm.copied env = Rejected
       ∨ GalleryForm.copied env = Resolved ()
         ∧ (GalleryForm.saved env = Rejected
            ∨ GalleryForm.saved env = Resolved ()
              ∧ GalleryForm.deleted env = Rejected)) →
  let after :=
    run (GalleryForm.handleSave cacheDirectory toISOString st env) (st, w) in
  after.1 = Normal ()
  ∧ after.2.1 = Form.setIsSaving false (Form.setErrors ∅ st)
  ∧ storage after.2.2 = storage w
  ∧ ∃ calls,
      trace after.2.2
      = trace w ++ calls
        ++ [ ConsoleError
               (lit "Erreur lors de la sauvegarde vers la galerie:");
             ConsoleError (lit "Erreur lors de la sauvegarde de la parcelle:");
             Alert (lit "Erreur")
               (lit "Une erreur s'est produite lors de la sauvegarde des données") ]
      ∧ Forall (λ e, ∀ k v, e ≠ SetItem k v) calls.
Proof.
  intros Hv Hi Hfail after. subst after.
  unfold GalleryForm.handleSave, Form.validateForm. cbn.
  rewrite (valid_decide st Hv), Hv. cbn. rewrite Hi. cbn.
  rewrite (valid_lot_truthy st Hv).
  destruct Hfail as [Hg|[Hg [Hc|[Hc [Hs|[Hs Hd]]]]]];
    rewrite Hg; cbn; rewrite ?Hc; cbn; rewrite ?Hs; cbn; rewrite ?Hd; cbn;
    (split; [done|]); (split; [done|]); (split; [done|]);
    rewrite <- ?(assoc_L (++)); cbn [app];
    first [ eexists [_]; split; [reflexivity|]
          | eexists [_; _]; split; [reflexivity|]
          | eexists [_; _; _]; split; [reflexivity|]
          | eexists [_; _; _; _]; split; [reflexivity|] ];
    repeat constructor; done.
Qed.

Lemma gallery_image_failure_aborts_witness :
  Form.newErrors
    (Form.setImage (Some Example.photo)
       (Example.form "A4" "Bon" "5" [Example.r1])) = ∅
  ∧ storage
      (run (GalleryForm.handleSave Example.cacheDirectory Example.toISOString
              (Form.setImage (Some Example.photo)
                 (Example.form "A4" "Bon" "5" [Example.r1]))
              (GalleryForm.mkEnv (Resolved true) 0 Example.t1 (Resolved ())
                 Rejected (Resolved ()) Example.t2 Example.t2 (Resolved ())
                 false))
         (Form.setImage (Some Example.photo)
            (Example.form "A4" "Bon" "5" [Example.r1]),
          Example.world [Example.r1])).2.2
    = Some [Example.r1].
Proof.
  assert (Form.newErrors
            (Form.setImage (Some Example.photo)
               (Example.form "A4" "Bon" "5" [Example.r1])) = ∅) as Hv
    by reflexivity.
  split; [exact Hv|].
  destruct (gallery_image_failure_aborts Example.cacheDirectory
              Example.toISOString
              (Form.setImage (Some Example.photo)
                 (Example.form "A4" "Bon" "5" [Example.r1]))
              (GalleryForm.mkEnv (Resolved true) 0 Example.t1 (Resolved ())
                 Rejected (Resolved ()) Example.t2 Example.t2 (Resolved ())
                 false)
              (Example.world [Example.r1]) Example.photo Hv eq_refl
              (or_intror (conj eq_refl (or_intror (conj eq_refl
                 (or_introl eq_refl))))))
    as (_ & _ & Hstore & _).
  rewrite Hstore. reflexivity.
Defined.


Lemma valid_lot_nonempty st :
  Form.newErrors st = ∅ → trim (Form.numeroDeLot st) ≠ [].
Proof.
  intros Hv%valid_lot_truthy. by destruct (trim (Form.numeroDeLot st)).
Qed.



Lemma images_path_truthy (documentDirectory x : jsstring) :
  truthy (FileForm.IMAGES_DIRECTORY documentDirectory ++ x) = true.
Proof.
  unfold FileForm.IMAGES_DIRECTORY.
  destruct documentDirectory; [by vm_compute|done].
Qed.

(** X6. A file-system save that passes validation and meets no failure
    copies the picked image under the application's image directory, to a
    name made of the clock reading and the picked name, stores that path
    as the record's image, writes the collection with the new record at
    the end, resets the form and navigates back.  Without an image nothing
    is copied and the record has none. *)
Theorem file_save_succeeds (documentDirectory : jsstring)
    (toISOString : Z → jsstring) st (env : FileForm.Env) w :
  Form.newErrors st = ∅ →
  (is_Some (Form.image st) → FileForm.copied env = Resolved ()) →
  FileForm.stored env = Resolved () →
  let path (img : Model.Image) :=
    FileForm.IMAGES_DIRECTORY documentDirectory
      ++ toString (FileForm.now_file env) ++ lit "_" ++ Model.name img in
  let p :=
    FileForm.newParcelle toISOString st env (path <$> Form.image st) in
  let after :=
    run (FileForm.handleSave documentDirectory toISOString st env) (st, w) in
  after.1 = Normal ()
  ∧ after.2.1
    = Form.mkState (lit "") (lit "") (lit "") None (Form.isLoading st) false
        (Form.parcelles st ++ [p]) (lit "") (lit "") ∅
  ∧ storage after.2.2 = Some (Form.parcelles st ++ [p])
  ∧ trace after.2.2
    = trace w
      ++ match Form.image st with
         | Some img => [CopyAsync (Model.uri img) (path img)]
         | None => []
         end
      ++ [SetItem Model.STORAGE_KEY (Form.parcelles st ++ [p])]
      ++ (if FileForm.onSave env then [OnSave p] else [])
      ++ [RouterBack]
  ∧ Model.image p
    = (λ img, Model.mkImage (path img) (Model.name img) None)
        <$> Form.image st
  ∧ FileForm.IMAGES_DIRECTORY documentDirectory
    = documentDirectory ++ lit "parcelle_images/".
Proof.
  intros Hv Himg Hs path p after. subst after p path.
  unfold FileForm.handleSave, Form.validateForm. cbn.
  rewrite (valid_decide st Hv). cbn.
  destruct (Form.image st) as [img|] eqn:Hi; cbn.
  - rewrite Himg by by eexists. cbn. rewrite Hs. cbn.
    destruct (FileForm.onSave env); cbn;
      rewrite <- ?(assoc_L (++)); cbn [app];
      repeat (split; [reflexivity|]);
      (split; [|reflexivity]);
      unfold FileForm.newParcelle; cbn; rewrite ?Hi;
      by rewrite images_path_truthy, or_else_empty.
  - rewrite Hs. cbn.
    destruct (FileForm.onSave env); cbn;
      rewrite <- ?(assoc_L (++)); cbn [app]; done.
Qed.

Lemma file_save_succeeds_witness :
  Form.newErrors
    (Form.setImage (Some Example.photo)
       (Example.form "A4" "Bon" "5" [Example.r1])) = ∅
  ∧ List.map Model.image
      (Form.parcelles
         (run (FileForm.handleSave Example.documentDirectory
                 Example.toISOString
                 (Form.setImage (Some Example.photo)
                    (Example.form "A4" "Bon" "5" [Example.r1]))
                 Example.file_ok)
            (Form.setImage (Some Example.photo)
               (Example.form "A4" "Bon" "5" [Example.r1]),
             Example.world [Example.r1])).2.1)
    = [None;
       Some (Model.mkImage
               (lit "file:///documents/parcelle_images/1704067200000_Parcelle_A1_1.jpg")
               (lit "Parcelle_A1_1.jpg") None)].
Proof.
  assert (Form.newErrors
            (Form.setImage (Some Example.photo)
               (Example.form "A4" "Bon" "5" [Example.r1])) = ∅) as Hv
    by reflexivity.
  split; [exact Hv|].
  destruct (file_save_succeeds Example.documentDirectory Example.toISOString
              (Form.setImage (Some Example.photo)
                 (Example.form "A4" "Bon" "5" [Example.r1]))
              Example.file_ok (Example.world [Example.r1]) Hv
              (λ _, eq_refl) eq_refl) as (_ & Hst & _).
  rewrite Hst. reflexivity.
Defined.

(** X7. When the copy of the picked image is rejected in the file-system
    variant the save is abandoned: no record is appended, the store is not
    written, the inputs and the picked image stay, the busy flag is
    lowered and a single error notice is shown. *)
Theorem file_copy_failure_aborts (documentDirectory : jsstring)
    (toISOString : Z → jsstring) st (env : FileForm.Env) w
    (img : Model.Image) :
  Form.newErrors st = ∅ →
  Form.image st = Some img →
  FileForm.copied env = Rejected →
  run (FileForm.handleSave documentDirectory toISOString st env) (st, w)
  = (Normal (),
     (Form.setIsSaving false (Form.setErrors ∅ st),
      mkWorld (storage w)
        (trace w
         ++ [ CopyAsync (Model.uri img)
                (FileForm.IMAGES_DIRECTORY documentDirectory
                   ++ toString (FileForm.now_file env) ++ lit "_"
                   ++ Model.name img);
              ConsoleError (lit "Erreur lors de la sauvegarde de l'image:");
              ConsoleError (lit "Erreur lors de la sauvegarde de la parcelle:");
              Alert (lit "Erreur")
                (lit "Une erreur s'est produite lors de la sauvegarde des données") ]))).
Proof.
  intros Hv Hi Hc.
  unfold FileForm.handleSave, Form.validateForm. cbn.
  rewrite (valid_decide st Hv), Hv. cbn. rewrite Hi. cbn. rewrite Hc. cbn.
  by rewrite <- ?(assoc_L (++)).
Qed.

Lemma file_copy_failure_aborts_witness :
  Form.newErrors
    (Form.setImage (Some Example.photo)
       (Example.form "A4" "Bon" "5" [Example.r1])) = ∅
  ∧ storage
      (run (FileForm.handleSave Example.documentDirectory
              Example.toISOString
              (Form.setImage (Some Example.photo)
                 (Example.form "A4" "Bon" "5" [Example.r1]))
              (FileForm.mkEnv Example.t1 Rejected Example.t2 Example.t2
                 (Resolved ()) false))
         (Form.setImage (Some Example.photo)
            (Example.form "A4" "Bon" "5" [Example.r1]),
          Example.world [Example.r1])).2.2
    = Some [Example.r1].
Proof.
  assert (Form.newErrors
            (Form.setImage (Some Example.photo)
               (Example.form "A4" "Bon" "5" [Example.r1])) = ∅) as Hv
    by reflexivity.
  split; [exact Hv|].
  rewrite (file_copy_failure_aborts Example.documentDirectory
             Example.toISOString
             (Form.setImage (Some Example.photo)
                (Example.form "A4" "Bon" "5" [Example.r1]))
             (FileForm.mkEnv Example.t1 Rejected Example.t2 Example.t2
                (Resolved ()) false)
             (Example.world [Example.r1]) Example.photo Hv eq_refl eq_refl).
  reflexivity.
Defined.
End FormRuns.

(** ** Taking a picture, and failures at the boundary *)

Section PickRuns.
Import JS Fx.
Implicit Types (st : Form.State) (w : World).


(** X9. Taking a picture in the file-system variant never fails, lowers
    the loading flag and touches neither the collection nor the store; it
    never asks for the gallery permission.  A captured picture is named
    after the lot number as typed, untrimmed, or after the clock when the
    input is empty. *)
Theorem file_pickImage_outcomes st (env : FileForm.PickEnv) w :
  let after := run (FileForm.pickImage st env) (st, w) in
  let picked :=
    match FileForm.camera_granted env, FileForm.captured env with
    | Resolved true, Resolved (Some assetUri) =>
        Some (Model.mkImage assetUri
                (lit "parcelle_"
                   ++ match Form.numeroDeLot st with
                      | [] => toString (FileForm.pick_now env)
                      | lot => lot
                      end
                   ++ lit ".jpg")
                None)
    | _, _ => Form.image st
    end in
  after.1 = Normal ()
  ∧ after.2.1 = Form.setIsLoading false (Form.setImage picked st)
  ∧ storage after.2.2 = storage w
  ∧ trace after.2.2
    = trace w
      ++ RequestCameraPermissionsAsync
         :: match FileForm.camera_granted env with
            | Resolved true =>
                LaunchCameraAsync
                :: match FileForm.captured env with
                   | Resolved _ => []
                   | Rejected =>
                       [ ConsoleLog [];
                         Alert (lit "Erreur")
                           (lit "Une erreur s'est produite lors de la prise de photo") ]
                   end
            | Resolved false =>
                [ Alert (lit "Attention")
                    (lit "Veuillez autoriser l'accès à l'appareil photo") ]
            | Rejected =>
                [ ConsoleLog [];
                  Alert (lit "Erreur")
                    (lit "Une erreur s'est produite lors de la prise de photo") ]
            end.
Proof.
  unfold FileForm.pickImage. destruct st as [lot ? ? ? ? ? ? ? ? ?].
  destruct env as [c cap now]. destruct c as [[]|]; cbn.
  - destruct cap as [[u|]|]; cbn; rewrite <- ?(assoc_L (++)); cbn [app];
      try done.
    by destruct lot.
  - by rewrite <- ?(assoc_L (++)).
  - by rewrite <- ?(assoc_L (++)).
Qed.

(** X10. No handler of the form lets a failure escape: whatever the
    platform answers, loading, taking a picture and saving complete
    normally in both variants.  A save that passed validation always ends
    with the busy flag lowered; one that did not leaves the flag alone. *)
Theorem form_handlers_never_throw (cacheDirectory documentDirectory : jsstring)
    (toISOString : Z → jsstring) st w (got : outcome ())
    (gpick : GalleryForm.PickEnv) (fpick : FileForm.PickEnv)
    (genv : GalleryForm.Env) (fenv : FileForm.Env) :
  let gsave :=
    run (GalleryForm.handleSave cacheDirectory toISOString st genv) (st, w) in
  let fsave :=
    run (FileForm.handleSave documentDirectory toISOString st fenv) (st, w) in
  let flag :=
    if bool_decide (Form.newErrors st = ∅) then false else Form.isSaving st in
  (run (Form.loadParcelles got) (st, w)).1 = Normal ()
  ∧ (run (GalleryForm.pickImage st gpick) (st, w)).1 = Normal ()
  ∧ (run (FileForm.pickImage st fpick) (st, w)).1 = Normal ()
  ∧ gsave.1 = Normal () ∧ Form.isSaving gsave.2.1 = flag
  ∧ fsave.1 = Normal () ∧ Form.isSaving fsave.2.1 = flag.
Proof.
  intros gsave fsave flag. subst gsave fsave flag.
  split.
  { unfold Form.loadParcelles. destruct got; cbn; [|done].
    by destruct (storage w). }
  split.
  { unfold GalleryForm.pickImage. destruct gpick as [c m cap now].
    destruct c as [[]|]; cbn; try done.
    destruct m as [[]|]; cbn; try done; by destruct cap as [[u|]|]. }
  split.
  { unfold FileForm.pickImage. destruct fpick as [c cap now].
    destruct c as [[]|]; cbn; try done. by destruct cap as [[u|]|]. }
  case_bool_decide as Hv.
  - unfold GalleryForm.handleSave, FileForm.handleSave, Form.validateForm.
    cbn. rewrite (valid_decide st Hv). cbn.
    destruct genv as [g nl nf c s d ni nc so os].
    destruct fenv as [fnf fc fni fnc fso fos].
    destruct (Form.image st) as [img|]; cbn.
    + split; [|split].
      * destruct g as [[]|]; cbn; try done;
          [destruct c; cbn; try done; destruct s; cbn; try done;
           destruct d; cbn; try done|];
          destruct so, os; cbn; done.
      * destruct g as [[]|]; cbn; try done;
          [destruct c; cbn; try done; destruct s; cbn; try done;
           destruct d; cbn; try done|];
          destruct so, os; cbn; done.
      * destruct fc; cbn; [|done]. destruct fso, fos; cbn; done.
    + split; [|split]; [..|destruct fso, fos; cbn; done];
        destruct so, os; cbn; done.
  - assert (size (Form.newErrors st) ≠ 0%nat) as Hsz
      by by rewrite valid_no_errors.
    by rewrite gallery_invalid, file_invalid.
Qed.
End PickRuns.

(** ** The list screen: loading, refreshing, deleting *)

Section ListRuns.
Import JS Fx Store.
Implicit Types (st : Index.State) (w : World).


(** X12. Dismissing the confirmation dialog deletes nothing: the list,
    the store and the gallery are left alone. *)
Theorem delete_cancelled (getTime : jsstring → option Z) st w
    (env : Index.DeleteEnv) (parcelleId : jsstring)
    (image : option Model.Image) :
  Index.confirmed env = false →
  run (Index.deleteParcelle getTime st env parcelleId image) (st, w)
  = (Normal (),
     (st,
      mkWorld (storage w)
        (trace w
         ++ [Alert (lit "Confirmer la suppression")
               (lit "Êtes-vous sûr de vouloir supprimer cette parcelle? Cette action ne peut pas être annulée.")]))).
Proof. intros Hc. unfold Index.deleteParcelle. cbn. by rewrite Hc. Qed.

Lemma delete_cancelled_witness :
  Index.confirmed
    (Index.mkDeleteEnv false (Resolved ()) (Resolved true) (Resolved ())
       (Resolved ())) = false
  ∧ storage
      (run (Index.deleteParcelle Example.getTime
              (Example.list_screen [Example.r2; Example.r1])
              (Index.mkDeleteEnv false (Resolved ()) (Resolved true)
                 (Resolved ()) (Resolved ()))
              (Model.id Example.r2) (Model.image Example.r2))
         (Example.list_screen [Example.r2; Example.r1],
          Example.world [Example.r1; Example.r2])).2.2
    = Some [Example.r1; Example.r2].
Proof.
  split; [reflexivity|].
  rewrite (delete_cancelled Example.getTime
             (Example.list_screen [Example.r2; Example.r1])
             (Example.world [Example.r1; Example.r2])
             (Index.mkDeleteEnv false (Resolved ()) (Resolved true)
                (Resolved ()) (Resolved ()))
             (Model.id Example.r2) (Model.image Example.r2) eq_refl).
  reflexivity.
Defined.



(** X14. A confirmed deletion whose write succeeds writes the store
    first and only then turns to the gallery.  The gallery is asked for
    permission only when the image carries a non-empty asset identifier,
    and asked to delete exactly that one asset only when the permission is
    granted; whatever it answers, the success notice closes the
    operation. *)
Theorem delete_gallery_calls (getTime : jsstring → option Z) st w
    (env : Index.DeleteEnv) (parcelleId : jsstring)
    (image : option Model.Image) :
  Index.confirmed env = true →
  Index.stored env = Resolved () →
  let remaining := kept parcelleId (Index.parcelles st) in
  let gallery :=
    match image with
    | Some (Model.mkImage _ _ (Some (c :: a))) =>
        RequestPermissionsAsync
        :: match Index.granted env with
           | Resolved true =>
               DeleteAssetsAsync [c :: a]
               :: match Index.deleted env with
                  | Resolved _ =>
                      [ConsoleLog (lit "Image deleted from media library")]
                  | Rejected =>
                      [ConsoleError
                         (lit "Error deleting image from media library:")]
                  end
           | Resolved false =>
               [ConsoleWarn (lit "Media library permission not granted")]
           | Rejected =>
               [ConsoleError (lit "Error deleting image from media library:")]
           end
    | _ => []
    end in
  trace (run (Index.deleteParcelle getTime st env parcelleId image)
           (st, w)).2.2
  = trace w
    ++ [ Alert (lit "Confirmer la suppression")
           (lit "Êtes-vous sûr de vouloir supprimer cette parcelle? Cette action ne peut pas être annulée.");
         SetItem Model.STORAGE_KEY remaining ]
    ++ gallery
    ++ [Alert (lit "Succès") (lit "Parcelle supprimée avec succès")].
Proof.
  intros Hc Hs remaining gallery. subst gallery remaining.
  unfold Index.deleteParcelle, Index.deleteParcelle_onPress. cbn.
  rewrite Hc. cbn. rewrite Hs. cbn.
  destruct image as [[u n [[|c0 a0]|]]|]; cbn;
    try by rewrite <- ?(assoc_L (++)).
  destruct (Index.granted env) as [[]|]; cbn;
    try by rewrite <- ?(assoc_L (++)).
  destruct (Index.deleted env) as [[]|]; cbn;
    by rewrite <- ?(assoc_L (++)).
Qed.

Lemma delete_gallery_calls_witness :
  Index.confirmed Example.delete_ok = true
  ∧ Index.stored Example.delete_ok = Resolved ()
  ∧ trace
      (run (Index.deleteParcelle Example.getTime
              (Example.list_screen [Example.r1])
              Example.delete_ok (Model.id Example.r1)
              (Some (Model.mkImage (lit "u") (lit "n") (Some (lit "a7")))))
         (Example.list_screen [Example.r1],
          Example.world [Example.r1])).2.2
    = [ Alert (lit "Confirmer la suppression")
          (lit "Êtes-vous sûr de vouloir supprimer cette parcelle? Cette action ne peut pas être annulée.");
        SetItem Model.STORAGE_KEY [];
        RequestPermissionsAsync;
        DeleteAssetsAsync [lit "a7"];
        ConsoleLog (lit "Image deleted from media library");
        Alert (lit "Succès") (lit "Parcelle supprimée avec succès") ].
Proof.
  split; [reflexivity|]. split; [reflexivity|].
  rewrite (delete_gallery_calls Example.getTime
             (Example.list_screen [Example.r1]) (Example.world [Example.r1])
             Example.delete_ok (Model.id Example.r1)
             (Some (Model.mkImage (lit "u") (lit "n") (Some (lit "a7"))))
             eq_refl eq_refl).
  by vm_compute.
Defined.
End ListRuns.

(** ** The list screen: deleting everything *)

Section DeleteAllRuns.
Import JS Fx.
Implicit Types (st : Index.State) (w : World).

(** The calls [deleteAllMediaLibraryImages] makes to the gallery. *)
Lemma deleteAllMedia_run st (cur : Index.State) (env : DeleteAll.Env) w :
  run (DeleteAll.deleteAllMediaLibraryImages st env) (cur, w)
  = (Normal (),
     (cur,
      mkWorld (storage w)
        (trace w
         ++ RequestPermissionsAsync
            :: match DeleteAll.granted env with
               | Resolved true =>
                   match DeleteAll.assetIds (Index.parcelles st) with
                   | [] => []
                   | ids =>
                       DeleteAssetsAsync ids
                       :: match DeleteAll.deleted env with
                          | Resolved _ =>
                              [ConsoleLog
                                 (lit "Deleted "
                                    ++ toString (Z.of_nat (length ids))
                                    ++ lit " images from media library")]
                          | Rejected =>
                              [ConsoleError
                                 (lit "Error deleting images from media library:")]
                          end
                   end
               | Resolved false =>
                   [ConsoleWarn (lit "Media library permission not granted")]
               | Rejected =>
                   [ConsoleError
                      (lit "Error deleting images from media library:")]
               end))).
Proof.
  unfold DeleteAll.deleteAllMediaLibraryImages. destruct w as [sto tr].
  destruct (DeleteAll.granted env) as [[]|]; cbn;
    try by rewrite <- ?(assoc_L (++)).
  destruct (DeleteAll.assetIds (Index.parcelles st)) as [|i ids]; cbn.
  - by rewrite <- ?(assoc_L (++)).
  - destruct (DeleteAll.deleted env) as [[]|]; cbn;
      by rewrite <- ?(assoc_L (++)).
Qed.



Lemma deleteAll_cleared st (env : DeleteAll.Env) w :
  DeleteAll.confirmed env = true →
  DeleteAll.removed env = Resolved () →
  storage (run (DeleteAll.deleteAllParcelles st env) (st, w)).2.2 = None.
Proof.
  intros Hc Hr.
  unfold DeleteAll.deleteAllParcelles, DeleteAll.deleteAllParcelles_onPress.
  cbn. rewrite Hc. cbn.
  pose proof (deleteAllMedia_run st (Index.setIsLoading true st) env
                (mkWorld (storage w)
                   (trace w ++
                    [Alert (lit "Confirmer la suppression")
                       (lit "Êtes-vous sûr de vouloir supprimer toutes les parcelles? Cette action ne peut pas être annulée.")])))
    as Hrun.
  cbn in Hrun. rewrite Hrun. clear Hrun. cbn. by rewrite Hr.
Qed.

(** X16. Deleting everything, once confirmed, first turns to the gallery
    and then removes the stored key.  When the removal resolves the store
    is empty and so is the list; when it is rejected the list and the
    store keep every record, although the gallery has already been asked
    to delete their assets.  It never fails and always lowers the loading
    flag; dismissing the dialog changes nothing. *)
Theorem deleteAll_outcomes st (env : DeleteAll.Env) w :
  let after := run (DeleteAll.deleteAllParcelles st env) (st, w) in
  let gallery :=
    trace (run (DeleteAll.deleteAllMediaLibraryImages st env)
             (st, mkWorld (storage w) [])).2.2 in
  let dialog :=
    Alert (lit "Confirmer la suppression")
      (lit "Êtes-vous sûr de vouloir supprimer toutes les parcelles? Cette action ne peut pas être annulée.") in
  after.1 = Normal ()
  ∧ match DeleteAll.confirmed env, DeleteAll.removed env with
    | false, _ =>
        after.2.1 = st ∧ storage after.2.2 = storage w
        ∧ trace after.2.2 = trace w ++ [dialog]
    | true, Resolved _ =>
        after.2.1 = Index.setIsLoading false (Index.setParcelles [] st)
        ∧ storage after.2.2 = None
        ∧ trace after.2.2
          = trace w ++ dialog :: gallery
            ++ [ RemoveItem Model.STORAGE_KEY;
                 Alert (lit "Succès")
                   (lit "Toutes les parcelles ont été supprimées") ]
    | true, Rejected =>
        after.2.1 = Index.setIsLoading false st
        ∧ storage after.2.2 = storage w
        ∧ trace after.2.2
          = trace w ++ dialog :: gallery
            ++ [ RemoveItem Model.STORAGE_KEY;
                 ConsoleError (lit "Error deleting all parcelles:");
                 Alert (lit "Erreur")
                   (lit "Une erreur s'est produite lors de la suppression") ]
    end.
Proof.
  intros after gallery dialog. subst after gallery dialog.
  rewrite deleteAllMedia_run.
  unfold DeleteAll.deleteAllParcelles, DeleteAll.deleteAllParcelles_onPress.
  cbn. destruct (DeleteAll.confirmed env); cbn; [|done].
  pose proof (deleteAllMedia_run st (Index.setIsLoading true st) env
                (mkWorld (storage w)
                   (trace w ++
                    [Alert (lit "Confirmer la suppression")
                       (lit "Êtes-vous sûr de vouloir supprimer toutes les parcelles? Cette action ne peut pas être annulée.")])))
    as Hrun.
  cbn in Hrun. rewrite Hrun. clear Hrun. cbn.
  destruct st, (DeleteAll.removed env) as [[]|]; cbn;
    (split; [done|]); (split; [done|]); (split; [done|]);
    rewrite <- ?(assoc_L (++)); cbn [app]; done.
Qed.

(** X17. After everything was deleted, a load of the list screen shows an
    empty list, and a form that mounts and loads holds no record. *)
Theorem deleteAll_then_load (getTime : jsstring → option Z) st
    (shown : Index.State) (env : DeleteAll.Env) w :
  DeleteAll.confirmed env = true →
  DeleteAll.removed env = Resolved () →
  let cleared := (run (DeleteAll.deleteAllParcelles st env) (st, w)).2.2 in
  Index.parcelles
    (run (Index.loadParcelles getTime (Resolved ())) (shown, cleared)).2.1
  = []
  ∧ Form.parcelles
      (run (Form.loadParcelles (Resolved ())) (Form.initial, cleared)).2.1
    = [].
Proof.
  intros Hc Hr cleared.
  assert (storage cleared = None) as Hsto.
  { subst cleared. by apply deleteAll_cleared. }
  split.
  - unfold Index.loadParcelles. cbn. by rewrite Hsto.
  - unfold Form.loadParcelles. cbn. by rewrite Hsto.
Qed.

Lemma deleteAll_then_load_witness :
  DeleteAll.confirmed
    (DeleteAll.mkEnv true (Resolved true) (Resolved ()) (Resolved ())) = true
  ∧ Index.parcelles
      (run (Index.loadParcelles Example.getTime (Resolved ()))
         (Example.list_screen [Example.r2; Example.r1],
          (run (DeleteAll.deleteAllParcelles
                  (Example.list_screen [Example.r2; Example.r1])
                  (DeleteAll.mkEnv true (Resolved true) (Resolved ())
                     (Resolved ())))
             (Example.list_screen [Example.r2; Example.r1],
              Example.world [Example.r1; Example.r2])).2.2)).2.1
    = [].
Proof.
  split; [reflexivity|].
  apply (deleteAll_then_load Example.getTime
           (Example.list_screen [Example.r2; Example.r1])
           (Example.list_screen [Example.r2; Example.r1])
           (DeleteAll.mkEnv true (Resolved true) (Resolved ()) (Resolved ()))
           (Example.world [Example.r1; Example.r2]) eq_refl eq_refl).
Defined.
End DeleteAllRuns.

(** ** Exporting, and reloading after a deletion *)

Section ExportRuns.
Import JS Fx Store.
#[local] Arguments Index.excelWorkbook : simpl never.
#[local] Arguments Index.before : simpl never.
Implicit Types (st : Index.State) (w : World).

(** X18. Exporting a non-empty collection never fails, never touches the
    store or the list and always lowers the exporting flag.  The workbook
    is written to [parcelles_list_<date>.xlsx] in the document directory,
    the date being the part of the ISO instant before its [T].  The file
    is shared only when the write succeeded and sharing is available; a
    rejected write, availability check or share ends in one error
    notice. *)
Theorem export_outcomes (getTime : jsstring → option Z)
    (toLocaleDateString : option Z → jsstring) (toISOString : Z → jsstring)
    (documentDirectory : jsstring) st (env : Index.ExportEnv) w :
  Index.parcelles st ≠ [] →
  let fileName :=
    lit "parcelles_list_"
      ++ Index.before 84%N (toISOString (Index.export_now env))
      ++ lit ".xlsx" in
  let fileUri := documentDirectory ++ fileName in
  let failure :=
    [ ConsoleError (lit "Error exporting to Excel:");
      Alert (lit "Erreur")
        (lit "Une erreur s'est produite lors de la création du fichier Excel") ] in
  run (Index.exportToExcel getTime toLocaleDateString toISOString
         documentDirectory st env) (st, w)
  = (Normal (),
     (Index.setIsExporting false st,
      mkWorld (storage w)
        (trace w
         ++ WriteAsStringAsync fileUri
              (Index.excelWorkbook getTime toLocaleDateString
                 (Index.parcelles st))
            :: match Index.written env with
               | Rejected => failure
               | Resolved _ =>
                   IsAvailableAsync
                   :: match Index.available env with
                      | Rejected => failure
                      | Resolved false =>
                          [Alert (lit "Succès")
                             (lit "Fichier Excel créé et sauvegardé dans:"
                                ++ [10%N] ++ fileUri)]
                      | Resolved true =>
                          ShareAsync fileUri
                          :: match Index.shared env with
                             | Rejected => failure
                             | Resolved _ =>
                                 [Alert (lit "Succès")
                                    (lit "Fichier Excel créé et sauvegardé avec succès"
                                       ++ [10%N] ++ lit "Nom du fichier: "
                                       ++ fileName)]
                             end
                      end
               end))).
Proof.
  intros Hne fileName fileUri failure. subst failure fileUri fileName.
  unfold Index.exportToExcel.
  destruct (Index.parcelles st) as [|p0 l0] eqn:Hl; [done|]. cbn.
  destruct st as [ps ld dl rf ex]. cbn in *.
  destruct (Index.written env) as [[]|]; cbn;
    [|by rewrite <- ?(assoc_L (++))].
  destruct (Index.available env) as [[]|]; cbn;
    [|by rewrite <- ?(assoc_L (++))..].
  destruct (Index.shared env) as [[]|]; cbn; by rewrite <- ?(assoc_L (++)).
Qed.

Lemma export_outcomes_witness :
  Index.parcelles (Example.list_screen [Example.r2; Example.r1]) ≠ []
  ∧ List.map
      (λ e, match e with
            | WriteAsStringAsync fileUri _ => fileUri
            | ShareAsync url => url
            | _ => []
            end)
      (trace
         (run (Index.exportToExcel Example.getTime Example.toLocaleDateString
                 Example.toISOString Example.documentDirectory
                 (Example.list_screen [Example.r2; Example.r1])
                 Example.export_ok)
            (Example.list_screen [Example.r2; Example.r1],
             mkWorld None [])).2.2)
    = [ lit "file:///documents/parcelles_list_2024-01-03.xlsx"; [];
        lit "file:///documents/parcelles_list_2024-01-03.xlsx"; [] ].
Proof.
  assert (Index.parcelles (Example.list_screen [Example.r2; Example.r1])
          ≠ []) as Hne by done.
  split; [exact Hne|].
  rewrite (export_outcomes Example.getTime Example.toLocaleDateString
             Example.toISOString Example.documentDirectory
             (Example.list_screen [Example.r2; Example.r1])
             Example.export_ok (mkWorld None []) Hne).
  by vm_compute.
Defined.

(** A list in descending order of its key is left as it is by the sort. *)
Lemma insert_sorted_last {A : Type} (compareFn : A → A → option Z)
    (x : A) (l : list A) :
  Forall (λ y, ¬ sortCompare compareFn x y < 0) l →
  insert_sorted compareFn x l = l ++ [x].
Proof.
  induction 1 as [|y l Hy _ IH]; simpl; [done|].
  destruct (sortCompare compareFn x y <? 0) eqn:Hlt.
  - by apply Z.ltb_lt in Hlt.
  - by rewrite IH.
Qed.

Lemma sort_from_sorted {A : Type} (compareFn : A → A → option Z)
    (l acc : list A) :
  StronglySorted (λ a b, ¬ sortCompare compareFn b a < 0) (acc ++ l) →
  fold_left (λ acc x, insert_sorted compareFn x acc) l acc = acc ++ l.
Proof.
  revert acc. induction l as [|x l IH]; intros acc Hs; simpl.
  - by rewrite app_nil_r.
  - rewrite insert_sorted_last.
    + rewrite IH; rewrite <- (assoc_L (++)); done.
    + clear IH. induction acc as [|y acc IHacc]; [constructor|].
      simpl in Hs. apply StronglySorted_inv in Hs as [Hs Hy].
      constructor; [|by apply IHacc].
      rewrite Forall_forall in Hy. apply Hy.
      apply elem_of_app. right. apply list_elem_of_here.
Qed.

Lemma sort_sorted {A : Type} (compareFn : A → A → option Z) (l : list A) :
  StronglySorted (λ a b, ¬ sortCompare compareFn b a < 0) l →
  sort compareFn l = l.
Proof. intros Hs. unfold sort. by rewrite sort_from_sorted. Qed.

Lemma StronglySorted_weaken {A : Type} (R1 R2 : A → A → Prop)
    (P : A → Prop) (l : list A) :
  (∀ a b, P a → P b → R1 a b → R2 a b) →
  Forall P l → StronglySorted R1 l → StronglySorted R2 l.
Proof.
  intros HR HP Hs. induction Hs as [|a l Hs IH Ha]; [constructor|].
  apply Forall_cons in HP as [HPa HPl]. constructor; [by apply IH|].
  rewrite Forall_forall in Ha, HPl. apply Forall_forall. intros b Hb.
  apply HR; [done|by apply HPl|by apply Ha].
Qed.

Lemma StronglySorted_filter {A : Type} (R : A → A → Prop) (f : A → bool)
    (l : list A) :
  StronglySorted R l → StronglySorted R (List.filter f l).
Proof.
  induction 1 as [|a l Hs IH Ha]; simpl; [constructor|].
  destruct (f a); [|done]. constructor; [done|].
  rewrite Forall_forall in Ha. apply Forall_forall. intros b Hb.
  apply Ha. apply list_elem_of_In, filter_In in Hb as [Hb _].
  by apply list_elem_of_In.
Qed.

Lemma sort_ready (getTime : jsstring → option Z) (l : list Model.Parcelle) :
  Forall (λ p, is_Some (getTime (Model.createdAt p))) l →
  StronglySorted
    (λ a b, ¬ sortCompare (Index.compareFn getTime) b a < 0)
    (sort (Index.compareFn getTime) l).
Proof.
  intros Hall.
  set (key := λ p, default 0 (getTime (Model.createdAt p))).
  set (P := λ p, is_Some (getTime (Model.createdAt p))).
  assert (∀ a b, P a → P b →
            sortCompare (Index.compareFn getTime) a b = key b - key a)
    as Hkey.
  { intros a b [ta Ha] [tb Hb]. unfold sortCompare, Index.compareFn, key.
    by rewrite Ha, Hb. }
  eapply (StronglySorted_weaken (λ a b, key b ≤ key a) _ P).
  - intros a b Ha Hb Hab. rewrite (Hkey b a Hb Ha). cbv beta in Hab. lia.
  - by rewrite sort_perm.
  - by apply (sort_desc (Index.compareFn getTime) key P Hkey).
Qed.

(** X19. After a confirmed deletion on a freshly loaded list, the store
    holds the list as it is displayed, and loading again shows exactly
    that list: the displayed order without the deleted record. *)
Theorem reload_after_delete (getTime : jsstring → option Z) st w
    (env : Index.DeleteEnv) (parcelleId : jsstring)
    (image : option Model.Image) (l : list Model.Parcelle) :
  Forall (λ p, is_Some (getTime (Model.createdAt p))) l →
  Index.parcelles st = sort (Index.compareFn getTime) l →
  Index.confirmed env = true →
  Index.stored env = Resolved () →
  let deleted :=
    run (Index.deleteParcelle getTime st env parcelleId image) (st, w) in
  let reloaded :=
    run (Index.loadParcelles getTime (Resolved ())) deleted.2 in
  storage deleted.2.2
  = Some (kept parcelleId (sort (Index.compareFn getTime) l))
  ∧ Index.parcelles reloaded.2.1
    = kept parcelleId (sort (Index.compareFn getTime) l)
  ∧ Index.parcelles reloaded.2.1 = Index.parcelles deleted.2.1
  ∧ storage reloaded.2.2 = storage deleted.2.2.
Proof.
  intros Hall Hst Hc Hs deleted reloaded.
  assert (∃ tr u,
            deleted
            = (Normal (),
               (u, mkWorld (Some (kept parcelleId (Index.parcelles st))) tr))
            ∧ Index.parcelles u = kept parcelleId (Index.parcelles st))
    as (tr & u & Hd & Hu).
  { subst deleted. unfold Index.deleteParcelle. cbn. rewrite Hc.
    destruct (delete_resolved getTime st
                (mkWorld (storage w)
                   (trace w ++
                    [Alert (lit "Confirmer la suppression")
                       (lit "Êtes-vous sûr de vouloir supprimer cette parcelle? Cette action ne peut pas être annulée.")]))
                env parcelleId image Hs) as [tr Hrun].
    cbn in Hrun. cbn. rewrite Hrun. by do 2 eexists. }
  subst reloaded. rewrite Hd. cbn.
  rewrite Hu, Hst.
  rewrite (sort_sorted (Index.compareFn getTime)
             (kept parcelleId (sort (Index.compareFn getTime) l))); [done|].
  apply StronglySorted_filter. by apply sort_ready.
Qed.

Lemma reload_after_delete_witness :
  Forall (λ p, is_Some (Example.getTime (Model.createdAt p)))
    [Example.r1; Example.r2; Example.r3]
  ∧ Index.parcelles
      (run (Index.loadParcelles Example.getTime (Resolved ()))
         (run (Index.deleteParcelle Example.getTime
                 (Example.list_screen [Example.r3; Example.r2; Example.r1])
                 Example.delete_ok (Model.id Example.r2)
                 (Model.image Example.r2))
            (Example.list_screen [Example.r3; Example.r2; Example.r1],
             Example.world [Example.r1; Example.r2; Example.r3])).2).2.1
    = [Example.r3; Example.r1].
Proof.
  assert (Forall (λ p, is_Some (Example.getTime (Model.createdAt p)))
            [Example.r1; Example.r2; Example.r3]) as Hall.
  { repeat constructor; by eexists. }
  split; [exact Hall|].
  destruct (reload_after_delete Example.getTime
              (Example.list_screen [Example.r3; Example.r2; Example.r1])
              (Example.world [Example.r1; Example.r2; Example.r3])
              Example.delete_ok (Model.id Example.r2)
              (Model.image Example.r2)
              [Example.r1; Example.r2; Example.r3] Hall)
    as (_ & Hshown & _); [by vm_compute|reflexivity|reflexivity|].
  rewrite Hshown. by vm_compute.
Defined.
End ExportRuns.

(** ** What validation lets through *)

Section ValidationRuns.
Import JS Fx Validator.
Implicit Types (st : Form.State) (s : jsstring).

Lemma nombre_error st :
  trim (Form.nombreDeLogement st) ≠ [] →
  positive (Number (Form.nombreDeLogement st)) = false →
  Form.newErrors st !! "nombreDeLogement"
  = Some (Some (lit "Doit être un nombre positif")).
Proof.
  intros Hne Hpos. rewrite newErrors_rules. unfold rule_nombreDeLogement.
  rewrite bool_decide_eq_false_2, Number_trim, Hpos by done.
  apply lookup_union_Some_raw. right. split; [|apply lookup_singleton_eq].
  unfold rule_numeroDeLot, rule_etatDeParcelle.
  repeat case_bool_decide;
    by rewrite ?lookup_union, ?lookup_empty, ?lookup_singleton_ne by done.
Qed.

Lemma nombre_accepted st :
  trim (Form.nombreDeLogement st) ≠ [] →
  positive (Number (Form.nombreDeLogement st)) = true →
  Form.newErrors st !! "nombreDeLogement" = None.
Proof.
  intros Hne Hpos. rewrite newErrors_rules. unfold rule_nombreDeLogement.
  rewrite bool_decide_eq_false_2, Number_trim, Hpos by done.
  unfold rule_numeroDeLot, rule_etatDeParcelle.
  repeat case_bool_decide;
    by rewrite ?lookup_union, ?lookup_empty, ?lookup_singleton_ne by done.
Qed.

(** X20. A unit count whose trimmed text starts with a minus sign is
    always refused with the not-a-positive-number error, whatever
    follows the sign. *)
Theorem negative_count_rejected st (rest : jsstring) :
  trim (Form.nombreDeLogement st) = 45%N :: rest →
  Form.newErrors st !! "nombreDeLogement"
  = Some (Some (lit "Doit être un nombre positif"))
  ∧ ∀ w, (run (Form.validateForm st) (st, w)).1 = Normal false.
Proof.
  intros Hn.
  assert (Form.newErrors st !! "nombreDeLogement"
          = Some (Some (lit "Doit être un nombre positif"))) as Herr.
  { apply nombre_error; [by rewrite Hn|].
    unfold positive, Number. rewrite Hn. cbn.
    destruct (strict_eq rest (lit "Infinity")); [done|].
    by destruct (unsignedDecimal rest) as [[m e]|]. }
  split; [done|]. intros w. unfold Form.validateForm. cbn. f_equal.
  apply bool_decide_eq_false_2. eapply map_size_ne_0_lookup_2.
  by rewrite Herr.
Qed.

Lemma negative_count_rejected_witness :
  trim (lit " -3 ") = 45%N :: lit "3"
  ∧ Form.newErrors (Example.form "A4" "Bon" " -3 " []) !! "nombreDeLogement"
    = Some (Some (lit "Doit être un nombre positif")).
Proof.
  split; [reflexivity|].
  apply (negative_count_rejected (Example.form "A4" "Bon" " -3 " [])
           (lit "3") eq_refl).
Defined.

Lemma digit_not_space (c : char16) :
  (48 ≤ c ≤ 57)%N → isWhiteSpace c = false.
Proof.
  intros Hc. unfold isWhiteSpace.
  repeat (apply orb_false_intro); try (apply N.eqb_neq; lia).
  apply andb_false_intro1, N.leb_gt. lia.
Qed.

Lemma digits_trimEnd s :
  Forall (λ c, (48 ≤ c ≤ 57)%N) s → trimEnd s = s.
Proof.
  induction 1 as [|c s Hc _ IH]; simpl; [done|].
  rewrite IH. destruct s; [|done]. by rewrite digit_not_space.
Qed.

Lemma digits_trim s : Forall (λ c, (48 ≤ c ≤ 57)%N) s → trim s = s.
Proof.
  intros Hs. unfold trim.
  destruct Hs as [|c s Hc Hs]; [done|]. simpl trimStart.
  rewrite digit_not_space by done. apply digits_trimEnd. by constructor.
Qed.

Lemma digit_decimal (c : char16) :
  (48 ≤ c ≤ 57)%N → digit 10 c = Some (c - 48)%N.
Proof.
  intros Hc. unfold digit.
  replace ((48 <=? c)%N && (c <=? 57)%N) with true
    by (symmetry; apply andb_true_intro; split; apply N.leb_le; lia).
  replace (c - 48 <? 10)%N with true; [done|].
  symmetry. apply N.ltb_lt. lia.
Qed.

Lemma digits_all s :
  Forall (λ c, (48 ≤ c ≤ 57)%N) s →
  digits 10 s = (List.map (λ c, (c - 48)%N) s, []).
Proof.
  induction 1 as [|c s Hc _ IH]; simpl; [done|].
  by rewrite digit_decimal, IH.
Qed.

Lemma digits_value_from (ds : list N) (acc : N) :
  fold_left (λ a d, (a * 10 + d)%N) ds acc = 0%N
  ↔ acc = 0%N ∧ Forall (λ d, d = 0%N) ds.
Proof.
  revert acc. induction ds as [|d ds IH]; intros acc; simpl.
  - split; [by intros ->|by intros [-> _]].
  - rewrite IH, Forall_cons. split.
    + intros [H0 Hds]. split; [lia|]. split; [lia|done].
    + intros [-> [-> Hds]]. done.
Qed.

Ltac by_bits c :=
  destruct c as [|c]; [try done; try congruence|];
  repeat (destruct c as [c|c|]; try done; try congruence).

Lemma digits_nonDecimal (c : char16) s :
  Forall (λ c, (48 ≤ c ≤ 57)%N) s → nonDecimal (c :: s) = None.
Proof.
  intros Hs. unfold nonDecimal. destruct s as [|p r]; [by_bits c|].
  apply Forall_cons in Hs as [Hp _].
  assert (((p =? 98) || (p =? 66))%N = false) as ->
    by (apply orb_false_intro; apply N.eqb_neq; lia).
  assert (((p =? 111) || (p =? 79))%N = false) as ->
    by (apply orb_false_intro; apply N.eqb_neq; lia).
  assert (((p =? 120) || (p =? 88))%N = false) as ->
    by (apply orb_false_intro; apply N.eqb_neq; lia).
  by_bits c.
Qed.

Lemma decimal_unsigned (c : char16) s :
  c ≠ 43%N → c ≠ 45%N →
  decimal (c :: s)
  = if strict_eq (c :: s) (lit "Infinity") then Infinity false
    else match unsignedDecimal (c :: s) with
         | Some (m, e) => Finite false m e
         | None => NaN
         end.
Proof.
  intros H43 H45. unfold decimal.
  generalize (lit "Infinity"). generalize unsignedDecimal.
  generalize strict_eq. intros eq parse inf. by_bits c.
Qed.

Lemma digits_decimal (c : char16) s :
  (48 ≤ c ≤ 57)%N →
  decimal (c :: s)
  = match unsignedDecimal (c :: s) with
    | Some (m, e) => Finite false m e
    | None => NaN
    end.
Proof.
  intros Hc. rewrite decimal_unsigned by lia.
  assert (strict_eq (c :: s) (lit "Infinity") = false) as ->; [|done].
  unfold strict_eq. apply bool_decide_eq_false_2. intros Heq.
  vm_compute in Heq. injection Heq as -> _. lia.
Qed.

Lemma digits_number s :
  s ≠ [] → Forall (λ c, (48 ≤ c ≤ 57)%N) s →
  Number s
  = Finite false (digits_value 10 (List.map (λ c, (c - 48)%N) s)) 0.
Proof.
  intros Hne Hs. unfold Number. rewrite (digits_trim s Hs).
  destruct s as [|c s]; [done|].
  apply Forall_cons in Hs as Hcs. destruct Hcs as [Hc Hs'].
  rewrite (digits_nonDecimal c s Hs'), (digits_decimal c s Hc).
  unfold unsignedDecimal.
  rewrite (digits_all (c :: s)) by by constructor.
  by rewrite app_nil_r.
Qed.

(** X21. A unit count written with decimal digits only is accepted
    exactly when one of its digits is not a zero. *)
Theorem digit_count_accepted st :
  Form.nombreDeLogement st ≠ [] →
  Forall (λ c, (48 ≤ c ≤ 57)%N) (Form.nombreDeLogement st) →
  (Form.newErrors st !! "nombreDeLogement" = None
   ↔ ∃ c, c ∈ Form.nombreDeLogement st ∧ c ≠ 48%N).
Proof.
  intros Hne Hs.
  assert (trim (Form.nombreDeLogement st) ≠ []) as Htrim
    by by rewrite digits_trim.
  assert (positive (Number (Form.nombreDeLogement st)) = false
          ↔ Forall (λ c, c = 48%N) (Form.nombreDeLogement st)) as Hzero.
  { rewrite (digits_number _ Hne Hs). unfold positive. cbn.
    unfold rounds_to_zero, digits_value. cbn.
    rewrite negb_false_iff.
    destruct (_ =? 0)%N eqn:H0.
    - apply N.eqb_eq, digits_value_from in H0 as [_ H0]. split; [|done].
      intros _. rewrite Forall_forall in H0, Hs. apply Forall_forall.
      intros c Hc. specialize (Hs c Hc).
      assert ((c - 48)%N = 0%N) as Hd.
      { apply H0.
        apply list_elem_of_In, (in_map (λ c, (c - 48)%N)), list_elem_of_In, Hc. }
      lia.
    - split; [done|]. intros Hall. apply N.eqb_neq in H0. destruct H0.
      apply digits_value_from. split; [done|].
      apply Forall_forall. intros d Hd.
      apply list_elem_of_In, in_map_iff in Hd as (c & <- & Hc).
      rewrite Forall_forall in Hall.
      by rewrite (Hall c) by by apply list_elem_of_In. }
  split.
  - intros Hnone.
    destruct (decide (Forall (λ c, c = 48%N) (Form.nombreDeLogement st)))
      as [Hall|Hnot].
    + apply Hzero in Hall. by rewrite (nombre_error st Htrim Hall) in Hnone.
    + apply not_Forall_Exists in Hnot; [|intros c; apply _].
      apply Exists_exists in Hnot as (c & Hc & Hne48). by exists c.
  - intros (c & Hc & Hne48). apply nombre_accepted; [done|].
    apply not_false_iff_true. intros Hp. apply Hzero in Hp.
    rewrite Forall_forall in Hp. by destruct Hne48; apply Hp.
Qed.

Lemma digit_count_accepted_witness :
  Form.nombreDeLogement (Example.form "A4" "Bon" "007" []) ≠ []
  ∧ Forall (λ c, (48 ≤ c ≤ 57)%N)
      (Form.nombreDeLogement (Example.form "A4" "Bon" "007" []))
  ∧ Form.newErrors (Example.form "A4" "Bon" "007" []) !! "nombreDeLogement"
    = None.
Proof.
  assert (Form.nombreDeLogement (Example.form "A4" "Bon" "007" []) ≠ [])
    as Hne by (by vm_compute).
  assert (Forall (λ c, (48 ≤ c ≤ 57)%N)
            (Form.nombreDeLogement (Example.form "A4" "Bon" "007" [])))
    as Hs by (repeat constructor; by vm_compute).
  split; [exact Hne|]. split; [exact Hs|].
  apply (digit_count_accepted (Example.form "A4" "Bon" "007" []) Hne Hs).
  exists 55%N. split; [|done]. vm_compute. do 2 right. left.
Defined.
End ValidationRuns.

(** ** From the form to the list *)

Section FlowRuns.
Import JS Fx Validator.
Implicit Types (st : Form.State) (w : World) (l : list Model.Parcelle).

Lemma valid_fields st :
  Form.newErrors st = ∅ →
  trim (Form.numeroDeLot st) ≠ []
  ∧ trim (Form.etatDeParcelle st) ≠ []
  ∧ positive (Number (trim (Form.nombreDeLogement st))) = true.
Proof.
  intros Hv. split; [by apply valid_lot_nonempty|].
  apply valid_rules in Hv as (_ & He & Hn).
  unfold rule_etatDeParcelle in He. unfold rule_nombreDeLogement in Hn.
  split.
  - destruct (decide (trim (Form.etatDeParcelle st) = [])) as [E|E]; [|done].
    rewrite bool_decide_eq_true_2 in He by done.
    by apply map_non_empty_singleton in He.
  - destruct (decide (trim (Form.nombreDeLogement st) = [])) as [E|E].
    + rewrite bool_decide_eq_true_2 in Hn by done.
      by apply map_non_empty_singleton in Hn.
    + rewrite bool_decide_eq_false_2 in Hn by done.
      destruct (positive _); [done|by apply map_non_empty_singleton in Hn].
Qed.

Lemma Forall_filter_bool {A : Type} (P : A → Prop) (f : A → bool)
    (k : list A) :
  Forall P k → Forall P (List.filter f k).
Proof.
  induction 1 as [|a k Ha _ IH]; simpl; [done|].
  destruct (f a); [by constructor|done].
Qed.

(** X22. Every record of a collection built through the forms passed
    validation: its lot number and its state are not empty and its unit
    count reads as a number greater than zero. *)
Theorem built_records_valid (cacheDirectory documentDirectory : jsstring)
    (toISOString : Z → jsstring) (getTime : jsstring → option Z) l :
  App.built cacheDirectory documentDirectory toISOString getTime l →
  Forall
    (λ p, Model.numeroDeLot p ≠ [] ∧ Model.etatDeParcelle p ≠ []
          ∧ positive (Number (Model.nombreDeLogement p)) = true) l.
Proof.
  induction 1 as [|st env w _ IH|st env w _ IH
                  |st got w _ IH _ IHw
                  |st got w _ IH _ IHw
                  |st env pid img w _ IH _ IHw].
  - constructor.
  - destruct (decide (size (Form.newErrors st) = 0%nat)) as [Hv|Hv].
    + pose proof (gallery_valid cacheDirectory toISOString st env w Hv) as H.
      cbv zeta in H. destruct H as [->|(i & -> & _)]; [done|].
      apply Forall_app. split; [done|]. constructor; [|constructor].
      by apply valid_fields, valid_no_errors.
    + unfold exec. by rewrite gallery_invalid.
  - destruct (decide (size (Form.newErrors st) = 0%nat)) as [Hv|Hv].
    + pose proof (file_valid documentDirectory toISOString st env w Hv) as H.
      cbv zeta in H. destruct H as [->|(path & ->)]; [done|].
      apply Forall_app. split; [done|]. constructor; [|constructor].
      by apply valid_fields, valid_no_errors.
    + unfold exec. by rewrite file_invalid.
  - unfold exec, Form.loadParcelles. destruct got; cbn; [|done].
    destruct (storage w) as [k|] eqn:Hk; cbn; [|done]. by apply IHw.
  - pose proof (load_cases getTime st w got) as H. cbv zeta in H.
    destruct H as [->|[->|(k & Hk & ->)]]; [done|constructor|].
    rewrite sort_perm. by apply IHw.
  - pose proof (delete_cases getTime st w env pid img) as H. cbv zeta in H.
    destruct H as [->|[->|[->|(k & Hk & ->)]]];
      [done|by apply Forall_filter_bool|constructor|].
    rewrite sort_perm. by apply IHw.
Qed.

Lemma built_records_valid_witness :
  App.built Example.cacheDirectory Example.documentDirectory
    Example.toISOString Example.getTime
    (Form.parcelles
       (exec (FileForm.handleSave Example.documentDirectory
                Example.toISOString (Example.form "A4" "Bon" "5" [])
                Example.file_ok)
          (Example.form "A4" "Bon" "5" []) (mkWorld None [])).1)
  ∧ Forall
      (λ p, Model.numeroDeLot p ≠ [] ∧ Model.etatDeParcelle p ≠ []
            ∧ positive (Number (Model.nombreDeLogement p)) = true)
      (Form.parcelles
         (exec (FileForm.handleSave Example.documentDirectory
                  Example.toISOString (Example.form "A4" "Bon" "5" [])
                  Example.file_ok)
            (Example.form "A4" "Bon" "5" []) (mkWorld None [])).1).
Proof.
  assert (App.built Example.cacheDirectory Example.documentDirectory
            Example.toISOString Example.getTime
            (Form.parcelles
               (exec (FileForm.handleSave Example.documentDirectory
                        Example.toISOString (Example.form "A4" "Bon" "5" [])
                        Example.file_ok)
                  (Example.form "A4" "Bon" "5" []) (mkWorld None [])).1))
    as Hb by (apply App.built_file; constructor).
  split; [exact Hb|].
  exact (built_records_valid Example.cacheDirectory
           Example.documentDirectory Example.toISOString Example.getTime _
           Hb).
Defined.

Lemma insert_sorted_first {A : Type} (compareFn : A → A → option Z)
    (x : A) (k : list A) :
  Forall (λ y, sortCompare compareFn x y < 0) k →
  insert_sorted compareFn x k = x :: k.
Proof.
  destruct 1 as [|y k Hy _]; simpl; [done|].
  by rewrite (proj2 (Z.ltb_lt _ _) Hy).
Qed.

Lemma sort_snoc {A : Type} (compareFn : A → A → option Z) (x : A)
    (k : list A) :
  sort compareFn (k ++ [x]) = insert_sorted compareFn x (sort compareFn k).
Proof. unfold sort. by rewrite fold_left_app. Qed.

(** X23. A record saved through the gallery form is what the screens then
    load: a form that mounts holds the former collection followed by the
    new record, and the list screen shows the former records and the new
    one.  When the instant of the new record is later than those of all
    the others, the list screen shows it first, ahead of the former
    records in their own display order. *)
Theorem saved_record_is_loaded (cacheDirectory : jsstring)
    (toISOString : Z → jsstring) (getTime : jsstring → option Z)
    st (env : GalleryForm.Env) w (shown : Index.State) :
  Form.newErrors st = ∅ →
  (is_Some (Form.image st) →
   GalleryForm.granted env = Resolved true
   ∧ GalleryForm.copied env = Resolved ()
   ∧ GalleryForm.saved env = Resolved ()
   ∧ GalleryForm.deleted env = Resolved ()) →
  GalleryForm.stored env = Resolved () →
  let saved :=
    (run (GalleryForm.handleSave cacheDirectory toISOString st env)
       (st, w)).2 in
  let listed :=
    Index.parcelles
      (run (Index.loadParcelles getTime (Resolved ())) (shown, saved.2)).2.1 in
  ∃ p,
    Form.parcelles saved.1 = Form.parcelles st ++ [p]
    ∧ Model.createdAt p = toISOString (GalleryForm.now_createdAt env)
    ∧ Form.parcelles
        (run (Form.loadParcelles (Resolved ())) (Form.initial, saved.2)).2.1
      = Form.parcelles st ++ [p]
    ∧ listed ≡ₚ p :: Form.parcelles st
    ∧ (Forall
         (λ q, ∃ tq tp,
            getTime (Model.createdAt q) = Some tq
            ∧ getTime (Model.createdAt p) = Some tp ∧ tq < tp)
         (Form.parcelles st) →
       listed = p :: sort (Index.compareFn getTime) (Form.parcelles st)).
Proof.
  intros Hv Himg Hs saved listed. subst listed saved.
  rewrite (gallery_run_success cacheDirectory toISOString st env w
             Hv Himg Hs).
  eexists. split; [reflexivity|]. split; [reflexivity|].
  split; [reflexivity|]. cbn.
  split.
  - rewrite sort_perm. symmetry. apply Permutation_cons_append.
  - intros Hlate. rewrite sort_snoc. apply insert_sorted_first.
    rewrite sort_perm. eapply Forall_impl; [exact Hlate|].
    intros q (tq & tp & Hq & Hp & Hlt).
    unfold sortCompare, Index.compareFn. cbn in Hp |- *. rewrite Hq, Hp. lia.
Qed.

Lemma saved_record_is_loaded_witness :
  Form.newErrors (Example.form "A4" "Bon" "5" [Example.r1]) = ∅
  ∧ List.map Model.numeroDeLot
      (Index.parcelles
         (run (Index.loadParcelles Example.getTime (Resolved ()))
            (Index.initial,
             (run (GalleryForm.handleSave Example.cacheDirectory
                     Example.toISOString
                     (Example.form "A4" "Bon" "5" [Example.r1])
                     Example.gallery_ok)
                (Example.form "A4" "Bon" "5" [Example.r1],
                 Example.world [Example.r1])).2.2)).2.1)
    = [lit "A4"; lit "A1"].
Proof.
  assert (Form.newErrors (Example.form "A4" "Bon" "5" [Example.r1]) = ∅)
    as Hv by reflexivity.
  split; [exact Hv|].
  destruct (saved_record_is_loaded Example.cacheDirectory
              Example.toISOString Example.getTime
              (Example.form "A4" "Bon" "5" [Example.r1]) Example.gallery_ok
              (Example.world [Example.r1]) Index.initial Hv
              (λ H, match is_Some_None H with end) eq_refl)
    as (p & Hp & _ & _ & _ & Hfirst).
  apply app_inj_tail in Hp as [_ <-].
  rewrite Hfirst; [reflexivity|].
  repeat constructor. exists Example.t1, Example.t2.
  split; [reflexivity|]. split; [reflexivity|]. by vm_compute.
Defined.
End FlowRuns.
